(** * pyan: the command-line entry point [pyan/main.py]

    A shallow embedding of [main()]: the option table it declares, the
    input checks, the graph options it derives, the logger it configures,
    the focus selection and the writer dispatch.  The analyzer, the
    presentation builder and the writers are separate modules of pyan;
    [main] only calls them, so they appear here as parameters of a
    section, and every call [main] makes to them is recorded in a trace.
    The file system of the run is a parameter too: what a pattern matches
    ([glob]) and which names can be opened for appending (the log file). *)

From Stdlib Require Import Ascii String.
From stdpp Require Import base option list strings gmap sorting.

(** ** Python strings *)

(** Strings are sequences of bytes.  The only separator [main] cuts at is
    the ASCII dot, whose byte occurs in a UTF-8 string only as that
    character, so cutting the bytes is cutting the characters. *)
Module Py.

(** [s.split(sep)] for a one-character separator: cut at every occurrence,
    keep empty pieces, never return the empty list.  [pieces] returns the
    first piece and the others apart, so that the result of [split] is
    non-empty by construction. *)
Fixpoint pieces (sep : ascii) (s : string) : string * list string :=
  match s with
  | EmptyString => (EmptyString, [])
  | String c s' =>
      let '(w, ws) := pieces sep s' in
      if decide (c = sep) then (EmptyString, w :: ws) else (String c w, ws)
  end.

Definition split (sep : ascii) (s : string) : list string :=
  let '(w, ws) := pieces sep s in w :: ws.

(** [sep.join(l)] *)
Fixpoint join (sep : string) (l : list string) : string :=
  match l with
  | [] => ""
  | [w] => w
  | w :: ws => w +:+ sep +:+ join sep ws
  end.

(** [l[-1]] on a list of strings.  It is only applied to the result of
    [split], which is never empty, so the default is never returned. *)
Definition item_last (l : list string) : string := List.last l "".

(** [l[:-1]] *)
Definition but_last (l : list string) : list string := removelast l.

(** Truth value of an attribute that is [None] or a string: [None] and the
    empty string are false. *)
Definition truthy (o : option string) : bool :=
  match o with
  | None => false
  | Some s => negb (bool_decide (s = ""))
  end.

(** [c in s] for a character. *)
Fixpoint contains (c : ascii) (s : string) : bool :=
  match s with
  | EmptyString => false
  | String c' s' => bool_decide (c' = c) || contains c s'
  end.

End Py.

Definition dot_char : ascii := "."%char.

(** ** The option table (main.py, lines 26-88) *)

(** The attributes of the [options] object returned by [parse_args], one
    per [dest] of the table.  An option declared without [dest] is stored
    under its long name. *)
Record Values := mkValues {
  dot : bool;
  tgf : bool;
  svg : bool;
  html : bool;
  yed : bool;
  filename : option string;
  namespace : option string;
  function : option string;
  logname : option string;
  verbose : bool;
  very_verbose : bool;
  draw_defines : bool;
  draw_uses : bool;
  colored : bool;
  grouped_alt : bool;
  grouped : bool;
  nested_groups : bool;
  rankdir : string;
  annotated : bool
}.

(** The [default=] of each declaration; [--log] declares none, which
    optparse turns into [None]. *)
Definition defaults : Values := {|
  dot := false;
  tgf := false;
  svg := false;
  html := false;
  yed := false;
  filename := None;
  namespace := None;
  function := None;
  logname := None;
  verbose := false;
  very_verbose := false;
  draw_defines := true;
  draw_uses := true;
  colored := false;
  grouped_alt := false;
  grouped := false;
  nested_groups := false;
  rankdir := "TB";
  annotated := false
|}.

(** An option as it occurs on a command line, after optparse has
    recognised it: one constructor per [add_option], with the argument of
    the options whose action is [store]. *)
Inductive flag : Type :=
  | opt_dot
  | opt_tgf
  | opt_svg
  | opt_html
  | opt_yed
  | opt_file (FILE : string)
  | opt_namespace (NAMESPACE : string)
  | opt_function (FUNCTION : string)
  | opt_log (LOG : string)
  | opt_verbose
  | opt_very_verbose
  | opt_defines
  | opt_no_defines
  | opt_uses
  | opt_no_uses
  | opt_colored
  | opt_grouped_alt
  | opt_grouped
  | opt_nested_groups
  | opt_dot_rankdir (DIR : string)
  | opt_annotated.

#[global] Instance flag_eq_dec : EqDecision flag.
Proof. solve_decision. Defined.

(** Attribute assignment, [options.dest = x]. *)
Section setters.
Variable o : Values.

Definition set_dot (x : bool) : Values :=
  mkValues x (tgf o) (svg o) (html o) (yed o) (filename o) (namespace o)
    (function o) (logname o) (verbose o) (very_verbose o) (draw_defines o)
    (draw_uses o) (colored o) (grouped_alt o) (grouped o) (nested_groups o)
    (rankdir o) (annotated o).
Definition set_tgf (x : bool) : Values :=
  mkValues (dot o) x (svg o) (html o) (yed o) (filename o) (namespace o)
    (function o) (logname o) (verbose o) (very_verbose o) (draw_defines o)
    (draw_uses o) (colored o) (grouped_alt o) (grouped o) (nested_groups o)
    (rankdir o) (annotated o).
Definition set_svg (x : bool) : Values :=
  mkValues (dot o) (tgf o) x (html o) (yed o) (filename o) (namespace o)
    (function o) (logname o) (verbose o) (very_verbose o) (draw_defines o)
    (draw_uses o) (colored o) (grouped_alt o) (grouped o) (nested_groups o)
    (rankdir o) (annotated o).
Definition set_html (x : bool) : Values :=
  mkValues (dot o) (tgf o) (svg o) x (yed o) (filename o) (namespace o)
    (function o) (logname o) (verbose o) (very_verbose o) (draw_defines o)
    (draw_uses o) (colored o) (grouped_alt o) (grouped o) (nested_groups o)
    (rankdir o) (annotated o).
Definition set_yed (x : bool) : Values :=
  mkValues (dot o) (tgf o) (svg o) (html o) x (filename o) (namespace o)
    (function o) (logname o) (verbose o) (very_verbose o) (draw_defines o)
    (draw_uses o) (colored o) (grouped_alt o) (grouped o) (nested_groups o)
    (rankdir o) (annotated o).
Definition set_filename (x : option string) : Values :=
  mkValues (dot o) (tgf o) (svg o) (html o) (yed o) x (namespace o)
    (function o) (logname o) (verbose o) (very_verbose o) (draw_defines o)
    (draw_uses o) (colored o) (grouped_alt o) (grouped o) (nested_groups o)
    (rankdir o) (annotated o).
Definition set_namespace (x : option string) : Values :=
  mkValues (dot o) (tgf o) (svg o) (html o) (yed o) (filename o) x
    (function o) (logname o) (verbose o) (very_verbose o) (draw_defines o)
    (draw_uses o) (colored o) (grouped_alt o) (grouped o) (nested_groups o)
    (rankdir o) (annotated o).
Definition set_function (x : option string) : Values :=
  mkValues (dot o) (tgf o) (svg o) (html o) (yed o) (filename o)
    (namespace o) x (logname o) (verbose o) (very_verbose o)
    (draw_defines o) (draw_uses o) (colored o) (grouped_alt o) (grouped o)
    (nested_groups o) (rankdir o) (annotated o).
Definition set_logname (x : option string) : Values :=
  mkValues (dot o) (tgf o) (svg o) (html o) (yed o) (filename o)
    (namespace o) (function o) x (verbose o) (very_verbose o)
    (draw_defines o) (draw_uses o) (colored o) (grouped_alt o) (grouped o)
    (nested_groups o) (rankdir o) (annotated o).
Definition set_verbose (x : bool) : Values :=
  mkValues (dot o) (tgf o) (svg o) (html o) (yed o) (filename o)
    (namespace o) (function o) (logname o) x (very_verbose o)
    (draw_defines o) (draw_uses o) (colored o) (grouped_alt o) (grouped o)
    (nested_groups o) (rankdir o) (annotated o).
Definition set_very_verbose (x : bool) : Values :=
  mkValues (dot o) (tgf o) (svg o) (html o) (yed o) (filename o)
    (namespace o) (function o) (logname o) (verbose o) x (draw_defines o)
    (draw_uses o) (colored o) (grouped_alt o) (grouped o) (nested_groups o)
    (rankdir o) (annotated o).
Definition set_draw_defines (x : bool) : Values :=
  mkValues (dot o) (tgf o) (svg o) (html o) (yed o) (filename o)
    (namespace o) (function o) (logname o) (verbose o) (very_verbose o) x
    (draw_uses o) (colored o) (grouped_alt o) (grouped o) (nested_groups o)
    (rankdir o) (annotated o).
Definition set_draw_uses (x : bool) : Values :=
  mkValues (dot o) (tgf o) (svg o) (html o) (yed o) (filename o)
    (namespace o) (function o) (logname o) (verbose o) (very_verbose o)
    (draw_defines o) x (colored o) (grouped_alt o) (grouped o)
    (nested_groups o) (rankdir o) (annotated o).
Definition set_colored (x : bool) : Values :=
  mkValues (dot o) (tgf o) (svg o) (html o) (yed o) (filename o)
    (namespace o) (function o) (logname o) (verbose o) (very_verbose o)
    (draw_defines o) (draw_uses o) x (grouped_alt o) (grouped o)
    (nested_groups o) (rankdir o) (annotated o).
Definition set_grouped_alt (x : bool) : Values :=
  mkValues (dot o) (tgf o) (svg o) (html o) (yed o) (filename o)
    (namespace o) (function o) (logname o) (verbose o) (very_verbose o)
    (draw_defines o) (draw_uses o) (colored o) x (grouped o)
    (nested_groups o) (rankdir o) (annotated o).
Definition set_grouped (x : bool) : Values :=
  mkValues (dot o) (tgf o) (svg o) (html o) (yed o) (filename o)
    (namespace o) (function o) (logname o) (verbose o) (very_verbose o)
    (draw_defines o) (draw_uses o) (colored o) (grouped_alt o) x
    (nested_groups o) (rankdir o) (annotated o).
Definition set_nested_groups (x : bool) : Values :=
  mkValues (dot o) (tgf o) (svg o) (html o) (yed o) (filename o)
    (namespace o) (function o) (logname o) (verbose o) (very_verbose o)
    (draw_defines o) (draw_uses o) (colored o) (grouped_alt o) (grouped o)
    x (rankdir o) (annotated o).
Definition set_rankdir (x : string) : Values :=
  mkValues (dot o) (tgf o) (svg o) (html o) (yed o) (filename o)
    (namespace o) (function o) (logname o) (verbose o) (very_verbose o)
    (draw_defines o) (draw_uses o) (colored o) (grouped_alt o) (grouped o)
    (nested_groups o) x (annotated o).
Definition set_annotated (x : bool) : Values :=
  mkValues (dot o) (tgf o) (svg o) (html o) (yed o) (filename o)
    (namespace o) (function o) (logname o) (verbose o) (very_verbose o)
    (draw_defines o) (draw_uses o) (colored o) (grouped_alt o) (grouped o)
    (nested_groups o) (rankdir o) x.
End setters.

(** The [action] and [dest] of each declaration: [store_true] and
    [store_false] write the constant, [store] (the default action) writes
    the argument. *)
Definition take_action (f : flag) (o : Values) : Values :=
  match f with
  | opt_dot => set_dot o true
  | opt_tgf => set_tgf o true
  | opt_svg => set_svg o true
  | opt_html => set_html o true
  | opt_yed => set_yed o true
  | opt_file FILE => set_filename o (Some FILE)
  | opt_namespace NAMESPACE => set_namespace o (Some NAMESPACE)
  | opt_function FUNCTION => set_function o (Some FUNCTION)
  | opt_log LOG => set_logname o (Some LOG)
  | opt_verbose => set_verbose o true
  | opt_very_verbose => set_very_verbose o true
  | opt_defines => set_draw_defines o true
  | opt_no_defines => set_draw_defines o false
  | opt_uses => set_draw_uses o true
  | opt_no_uses => set_draw_uses o false
  | opt_colored => set_colored o true
  | opt_grouped_alt => set_grouped_alt o true
  | opt_grouped => set_grouped o true
  | opt_nested_groups => set_nested_groups o true
  | opt_dot_rankdir DIR => set_rankdir o DIR
  | opt_annotated => set_annotated o true
  end.

(** [parser.parse_args()] on a command line it accepts: the defaults, then
    every option in the order given (a later occurrence overwrites an
    earlier one).  The positional arguments are kept apart.  A command
    line optparse refuses (an option it does not know, an argument that
    is missing) or answers itself ([-h]) ends inside [parse_args], before
    line 91; it is not a list of [flag]s. *)
Definition parse_args (flags : list flag) : Values :=
  foldl (fun o f => take_action f o) defaults flags.

(** ** The logger (the part of [logging] that [main] drives) *)

Inductive level : Type := NOTSET | DEBUG | INFO | WARN.

Inductive handler : Type :=
  | StreamHandler
  | FileHandler (filename : string).

Record Logger := mkLogger {
  log_level : level;
  log_handlers : list handler
}.

(** [logging.getLogger(__name__)] at the start of a run: no level set, no
    handler attached. *)
Definition getLogger : Logger := mkLogger NOTSET [].

Definition setLevel (l : level) (lg : Logger) : Logger :=
  mkLogger l (log_handlers lg).

Definition addHandler (h : handler) (lg : Logger) : Logger :=
  mkLogger (log_level lg) (log_handlers lg ++ [h]).

(** ** Exceptions and the trace of calls *)

(** [parser.error(msg)] prints the usage and [msg] and leaves the process
    with status 2; [logging.FileHandler(name)] raises an [OSError] when
    [name] cannot be opened; [get_node] reports an entity that cannot be
    resolved. *)
Inductive exn : Type :=
  | SystemExit (status : Z) (msg : string)
  | OSError (filename : string)
  | NotFound (namespace name : string).

Inductive writer_class : Type :=
  | DotWriter
  | HTMLWriter
  | SVGWriter
  | TgfWriter
  | YedWriter.

#[global] Instance writer_class_eq_dec : EqDecision writer_class.
Proof. solve_decision. Defined.

Section Calls.

Context {Node Visitor Graph : Type}.

(** A writer object: its class and the arguments of its constructor
    ([options=] is only passed to the three GraphViz-based writers). *)
Record Writer := mkWriter {
  w_class : writer_class;
  w_graph : Graph;
  w_options : option (list string);
  w_output : option string;
  w_logger : Logger
}.

(** Every call [main] makes into the rest of pyan, with its arguments. *)
Inductive call : Type :=
  | new_CallGraphVisitor (filenames : list string) (logger : Logger)
  | call_get_node (v : Visitor) (namespace name : string)
  | call_filter (v : Visitor) (node : option Node) (namespace : option string)
  | call_from_visitor (v : Visitor) (options : gmap string bool)
      (logger : Logger)
  | call_run (w : Writer).

(** A computation appends to the trace and either returns or raises. *)
Definition M (A : Type) : Type := list call -> (exn + A) * list call.

Definition ret {A} (a : A) : M A := fun t => (inr a, t).

Definition bind {A B} (m : M A) (k : A -> M B) : M B :=
  fun t =>
    match m t with
    | (inl e, t') => (inl e, t')
    | (inr a, t') => k a t'
    end.

Definition raise {A} (e : exn) : M A := fun t => (inl e, t).

Definition emit (c : call) : M unit := fun t => (inr tt, t ++ [c]).

Definition when (b : bool) (m : M unit) : M unit :=
  if b then m else ret tt.

End Calls.

Arguments Writer : clear implicits.
Arguments call : clear implicits.
Arguments M : clear implicits.

#[global] Instance M_ret {N V G} : MRet (M N V G) := @ret N V G.
#[global] Instance M_bind {N V G} : MBind (M N V G) :=
  fun A B k m => bind m k.

(** [len(args) > 0] *)
#[global] Instance nat_gt_dec (x y : nat) : Decision (x > y) :=
  decide (y < x).

(** ** [main] (main.py, lines 21-165) *)

Section Main.

Context {Node Visitor Graph : Type}.

(** The file system of the run.  [can_append name]: whether [name] can be
    opened for appending, which [logging.FileHandler(name)] does when it
    is constructed (a directory cannot, nor a name in a directory that
    does not exist or may not be written). *)
Variable can_append : string -> bool.

(** [glob.glob]: the paths a pattern matches. *)
Variable glob : string -> list string.

(** The analyzer and the presentation builder, as [main] calls them:
    [CallGraphVisitor(filenames, logger)], [v.get_node(namespace, name)],
    [v.filter(node=..., namespace=...)] (which updates the visitor) and
    [VisualGraph.from_visitor(v, options=..., logger=...)].  Each stands
    for the value the call returns; [get_node] alone may fail to return
    one ([None]: the entity is not found), and [main], which catches
    nothing, then ends with that exception. *)
Variable CallGraphVisitor : list string -> Logger -> Visitor.
Variable visitor_get_node : Visitor -> string -> string -> option Node.
Variable visitor_filter : Visitor -> option Node -> option string -> Visitor.
Variable from_visitor : Visitor -> gmap string bool -> Logger -> Graph.

Local Abbreviation M := (M Node Visitor Graph).
Local Abbreviation call := (call Node Visitor Graph).
Local Abbreviation Writer := (Writer Graph).

Definition parser_error (msg : string) : M unit :=
  raise (SystemExit 2 msg).

Definition new_visitor (filenames : list string) (logger : Logger)
    : M Visitor :=
  emit (new_CallGraphVisitor filenames logger) ;;
  mret (CallGraphVisitor filenames logger).

Definition get_node (v : Visitor) (namespace name : string) : M Node :=
  emit (call_get_node v namespace name) ;;
  match visitor_get_node v namespace name with
  | Some node => mret node
  | None => raise (NotFound namespace name)
  end.

Definition filter_visitor (v : Visitor) (node : option Node)
    (namespace : option string) : M Visitor :=
  emit (call_filter v node namespace) ;;
  mret (visitor_filter v node namespace).

Definition VisualGraph_from_visitor (v : Visitor)
    (options : gmap string bool) (logger : Logger) : M Graph :=
  emit (call_from_visitor v options logger) ;;
  mret (from_visitor v options logger).

(** [writer.run()]: the output is the writer's business; here the call is
    recorded and returns. *)
Definition run (w : Writer) : M unit := emit (call_run w).

(** Lines 97-107: [nested_groups] switches [grouped] on, then the seven
    presentation options are collected in a dictionary. *)
Definition imply_grouped (options : Values) : Values :=
  if nested_groups options then set_grouped options true else options.

Definition graph_options_of (options : Values) : gmap string bool :=
  {[ "draw_defines" := draw_defines options;
     "draw_uses" := draw_uses options;
     "colored" := colored options;
     "grouped_alt" := grouped_alt options;
     "grouped" := grouped options;
     "nested_groups" := nested_groups options;
     "annotated" := annotated options ]}.

(** [logging.FileHandler(LOG)] (line 119): the handler when the file
    opens, the exception of [open] otherwise. *)
Definition new_FileHandler (LOG : string) : M handler :=
  if can_append LOG then mret (FileHandler LOG) else raise (OSError LOG).

(** Lines 110-120. *)
Definition configure_logger (options : Values) : M Logger :=
  let logger := getLogger in
  let logger :=
    if very_verbose options then setLevel DEBUG logger
    else if verbose options then setLevel INFO logger
    else setLevel WARN logger in
  let logger := addHandler StreamHandler logger in
  match logname options with
  | Some LOG =>
      if Py.truthy (Some LOG) then
        handler ← new_FileHandler LOG;
        mret (addHandler handler logger)
      else mret logger
  | None => mret logger
  end.

(** Lines 125-126. *)
Definition function_name_of (FUNCTION : string) : string :=
  Py.item_last (Py.split dot_char FUNCTION).

Definition namespace_of (FUNCTION : string) : string :=
  Py.join "." (Py.but_last (Py.split dot_char FUNCTION)).

(** Lines 123-130. *)
Definition select (options : Values) (v : Visitor) : M Visitor :=
  if Py.truthy (function options) || Py.truthy (namespace options) then
    node ← match function options with
           | Some FUNCTION =>
               if Py.truthy (Some FUNCTION) then
                 let function_name := function_name_of FUNCTION in
                 let namespace := namespace_of FUNCTION in
                 node ← get_node v namespace function_name;
                 mret (Some node)
               else mret None
           | None => mret None
           end;
    filter_visitor v node (namespace options)
  else mret v.

(** Lines 133-165. *)
Definition write (options : Values) (graph : Graph) (logger : Logger)
    : M unit :=
  when (dot options)
    (run (mkWriter DotWriter graph
            (Some ["rankdir=" +:+ rankdir options])
            (filename options) logger)) ;;
  when (html options)
    (run (mkWriter HTMLWriter graph
            (Some ["rankdir=" +:+ rankdir options])
            (filename options) logger)) ;;
  when (svg options)
    (run (mkWriter SVGWriter graph
            (Some ["rankdir=" +:+ rankdir options])
            (filename options) logger)) ;;
  when (tgf options)
    (run (mkWriter TgfWriter graph None (filename options) logger)) ;;
  when (yed options)
    (run (mkWriter YedWriter graph None (filename options) logger)).

Definition main (flags : list flag) (args : list string) : M unit :=
  let options := parse_args flags in
  let filenames := flat_map glob args in
  when (bool_decide (length args = 0))
    (parser_error "Need one or more filenames to process") ;;
  when (bool_decide (length args > 0) && bool_decide (length filenames = 0))
    (parser_error
       ("No files found matching given glob: " +:+ Py.join " " args)) ;;
  let options := imply_grouped options in
  let graph_options := graph_options_of options in
  logger ← configure_logger options;
  v ← new_visitor filenames logger;
  v ← select options v;
  graph ← VisualGraph_from_visitor v graph_options logger;
  write options graph logger.

(** A run of the program: [main] from the empty trace. *)
Definition execute (flags : list flag) (args : list string)
    : (exn + unit) * list call :=
  main flags args [].

End Main.

Arguments execute {Node Visitor Graph} can_append glob CallGraphVisitor
  visitor_get_node visitor_filter from_visitor flags args.

(** Whether the log file of the options, if they name one, can be
    opened. *)
Definition log_opens (can_append : string -> bool) (options : Values)
    : bool :=
  match logname options with
  | Some LOG => if Py.truthy (Some LOG) then can_append LOG else true
  | None => true
  end.

(** The logger a run works with once lines 110-120 have returned: the
    level asked for, the stream handler and, for a non-empty log name
    (which then has opened, see [log_opens]), the file handler after
    it. *)
Definition setup_logger (options : Values) : Logger :=
  let logger := getLogger in
  let logger :=
    if very_verbose options then setLevel DEBUG logger
    else if verbose options then setLevel INFO logger
    else setLevel WARN logger in
  let logger := addHandler StreamHandler logger in
  match logname options with
  | Some LOG =>
      if Py.truthy (Some LOG) then addHandler (FileHandler LOG) logger
      else logger
  | None => logger
  end.

(** ** The symbol table and its query *)

(** Modelled from the spec: the analyzer (pyan/analyzer.py) is not among
    the sources; this is the Entity of the data model, reduced to the
    attributes the query reads. *)
Inductive entity_kind : Type := Module_ | Class_ | Function_ | Method_.

Record Entity := mkEntity {
  qualified_name : string;
  kind : entity_kind;
  declaring_file : string;
  declaring_line : nat
}.

#[global] Instance entity_kind_eq_dec : EqDecision entity_kind.
Proof. solve_decision. Defined.

#[global] Instance Entity_eq_dec : EqDecision Entity.
Proof. solve_decision. Defined.

(** Modelled from the spec: the display name of an entity is the last
    segment of its qualified name, and the segments before it name what
    encloses the entity.  A top-level entity is one attached to the
    module entity of its file (4.1): an entity directly inside a module
    of the table. *)
Definition display_name (e : Entity) : string :=
  Py.item_last (Py.split dot_char (qualified_name e)).

Definition enclosing (e : Entity) : string :=
  Py.join "." (Py.but_last (Py.split dot_char (qualified_name e))).

Definition is_module (e : Entity) : bool :=
  match kind e with Module_ => true | _ => false end.

Definition top_level (table : list Entity) (e : Entity) : bool :=
  Py.contains dot_char (qualified_name e)
  && existsb
       (fun m => is_module m && bool_decide (qualified_name m = enclosing e))
       table.

(** Modelled from the spec: the public query [lookup(namespace, name)] of
    the analyzer, over the entities of the symbol table.  An entity
    matches when its qualified name is [namespace + "." + name] or, for
    the empty namespace, when it is a top-level entity named [name]; the
    query returns the match when there is exactly one and fails (NotFound,
    here [None]) when there is none or more than one. *)
Definition matches (table : list Entity) (namespace name : string)
    (e : Entity) : bool :=
  if bool_decide (namespace = "") then
    top_level table e && bool_decide (display_name e = name)
  else bool_decide (qualified_name e = namespace +:+ "." +:+ name).

Definition lookup (table : list Entity) (namespace name : string)
    : option Entity :=
  match List.filter (matches table namespace name) table with
  | [e] => Some e
  | _ => None
  end.

(** The spec's words for the unqualified case, in qualified names: [e] is
    an entity of the table called [module + "." + name] for a module
    entity of the table ([name] being a single segment). *)
Definition top_level_named (table : list Entity) (name : string)
    (e : Entity) : Prop :=
  e ∈ table /\ Py.contains dot_char name = false
  /\ exists m,
       m ∈ table /\ kind m = Module_
       /\ qualified_name e = qualified_name m +:+ "." +:+ name.

(** Invariant (a) of the data model: a qualified name belongs to at most
    one entity. *)
Definition unique_names (table : list Entity) : Prop :=
  NoDup (qualified_name <$> table).

(** ** A sample environment *)

(** Concrete parameters on which [main] can be run: a directory holding
    [m1.py] and [m2.py], in which any file can be opened for appending
    (the directory itself, [.], cannot), the symbol table of the
    two-module scenario
    ([m1.foo] uses [m2.bar]), a filter that keeps the table whole and a
    presentation graph that records the table and the options. *)
Module Sample.

Definition can_append (name : string) : bool :=
  negb (bool_decide (name = ".")).

Definition glob (pattern : string) : list string :=
  if bool_decide (pattern = "m1.py") then ["m1.py"]
  else if bool_decide (pattern = "m2.py") then ["m2.py"]
  else if bool_decide (pattern = "*.py") then ["m1.py"; "m2.py"]
  else [].

Definition table : list Entity :=
  [ mkEntity "m1" Module_ "m1.py" 1;
    mkEntity "m1.foo" Function_ "m1.py" 3;
    mkEntity "m2" Module_ "m2.py" 1;
    mkEntity "m2.bar" Function_ "m2.py" 1 ].

Definition CallGraphVisitor (filenames : list string) (logger : Logger)
    : list Entity :=
  List.filter (fun e => bool_decide (declaring_file e ∈ filenames)) table.

Definition visitor_filter (v : list Entity) (node : option Entity)
    (namespace : option string) : list Entity := v.

Definition from_visitor (v : list Entity) (options : gmap string bool)
    (logger : Logger) : list Entity * gmap string bool := (v, options).

Definition execute (flags : list flag) (args : list string) :=
  execute can_append glob CallGraphVisitor lookup visitor_filter
    from_visitor flags args.

End Sample.

(** ** What the command line asks for *)

(** The options that write one of the seven presentation attributes. *)
Definition presentation_flag (f : flag) : bool :=
  match f with
  | opt_defines | opt_no_defines | opt_uses | opt_no_uses | opt_colored
  | opt_grouped_alt | opt_grouped | opt_nested_groups | opt_annotated => true
  | _ => false
  end.

Definition presentation_defaults (o : Values) : Prop :=
  draw_defines o = true /\ draw_uses o = true /\ colored o = false /\
  grouped_alt o = false /\ grouped o = false /\ nested_groups o = false /\
  annotated o = false.

(** The dictionary of an invocation that leaves the presentation options
    alone. *)
Definition default_graph_options : gmap string bool :=
  {[ "draw_defines" := true;
     "draw_uses" := true;
     "colored" := false;
     "grouped_alt" := false;
     "grouped" := false;
     "nested_groups" := false;
     "annotated" := false ]}.

(** The message of the run that is refused for want of input files. *)
Definition abort_message (args : list string) : string :=
  match args with
  | [] => "Need one or more filenames to process"
  | _ => "No files found matching given glob: " +:+ Py.join " " args
  end.

(** The verbosity asked for. *)
Definition requested_level (flags : list flag) : level :=
  if bool_decide (opt_very_verbose ∈ flags) then DEBUG
  else if bool_decide (opt_verbose ∈ flags) then INFO
  else WARN.

(** The output formats in the order [main] serves them, the flag of each,
    and the writer each one gets. *)
Definition writer_classes : list writer_class :=
  [DotWriter; HTMLWriter; SVGWriter; TgfWriter; YedWriter].

Definition format_flag (c : writer_class) : flag :=
  match c with
  | DotWriter => opt_dot
  | HTMLWriter => opt_html
  | SVGWriter => opt_svg
  | TgfWriter => opt_tgf
  | YedWriter => opt_yed
  end.

Definition requested (options : Values) (c : writer_class) : bool :=
  match c with
  | DotWriter => dot options
  | HTMLWriter => html options
  | SVGWriter => svg options
  | TgfWriter => tgf options
  | YedWriter => yed options
  end.

Definition writer_of {Graph : Type} (options : Values) (graph : Graph)
    (logger : Logger) (c : writer_class) : Writer Graph :=
  mkWriter c graph
    match c with
    | TgfWriter | YedWriter => None
    | _ => Some ["rankdir=" +:+ rankdir options]
    end
    (filename options) logger.

Definition writer_calls {Node Visitor Graph : Type} (options : Values)
    (graph : Graph) (logger : Logger) : list (call Node Visitor Graph) :=
  (fun c => call_run (writer_of options graph logger c))
    <$> List.filter (requested options) writer_classes.

(** The calls of one kind in a trace. *)
Definition is_run {Node Visitor Graph : Type} (c : call Node Visitor Graph)
    : bool :=
  match c with call_run _ => true | _ => false end.

Definition is_filter {Node Visitor Graph : Type}
    (c : call Node Visitor Graph) : bool :=
  match c with call_filter _ _ _ => true | _ => false end.

Definition is_new_visitor {Node Visitor Graph : Type}
    (c : call Node Visitor Graph) : bool :=
  match c with new_CallGraphVisitor _ _ => true | _ => false end.

Definition is_get_node {Node Visitor Graph : Type}
    (c : call Node Visitor Graph) : bool :=
  match c with call_get_node _ _ _ => true | _ => false end.

(** The calls of the selection step (lines 123-130). *)
Definition is_selection {Node Visitor Graph : Type}
    (c : call Node Visitor Graph) : bool :=
  is_get_node c || is_filter c.

(** The stage of the pipeline a call belongs to: analysis, look-up,
    filter, presentation, then one stage per writer in the order of
    lines 133-165. *)
Definition is_from_visitor {Node Visitor Graph : Type}
    (c : call Node Visitor Graph) : bool :=
  match c with call_from_visitor _ _ _ => true | _ => false end.

Definition phase {Node Visitor Graph : Type} (c : call Node Visitor Graph)
    : nat :=
  match c with
  | new_CallGraphVisitor _ _ => 0
  | call_get_node _ _ _ => 1
  | call_filter _ _ _ => 2
  | call_from_visitor _ _ _ => 3
  | call_run w =>
      match w_class w with
      | DotWriter => 4
      | HTMLWriter => 5
      | SVGWriter => 6
      | TgfWriter => 7
      | YedWriter => 8
      end
  end.

(** What an option says about an attribute that several options or
    several occurrences can write. *)
Definition defines_switch (f : flag) : option bool :=
  match f with
  | opt_defines => Some true
  | opt_no_defines => Some false
  | _ => None
  end.

Definition uses_switch (f : flag) : option bool :=
  match f with
  | opt_uses => Some true
  | opt_no_uses => Some false
  | _ => None
  end.

Definition file_argument (f : flag) : option string :=
  match f with opt_file FILE => Some FILE | _ => None end.

Definition rankdir_argument (f : flag) : option string :=
  match f with opt_dot_rankdir DIR => Some DIR | _ => None end.

Definition namespace_argument (f : flag) : option string :=
  match f with opt_namespace NAMESPACE => Some NAMESPACE | _ => None end.

Definition function_argument (f : flag) : option string :=
  match f with opt_function FUNCTION => Some FUNCTION | _ => None end.

(** The six ways a run can go, each with its outcome and its whole
    trace: refused for want of files, stopped by a log file that cannot
    be opened, stopped by a focus that is not found, or completed with a
    focus, with a namespace alone, or with neither. *)
Section Path.

Context {Node Visitor Graph : Type}.
Variable can_append : string -> bool.
Variable glob : string -> list string.
Variable CallGraphVisitor : list string -> Logger -> Visitor.
Variable visitor_get_node : Visitor -> string -> string -> option Node.
Variable visitor_filter : Visitor -> option Node -> option string -> Visitor.
Variable from_visitor : Visitor -> gmap string bool -> Logger -> Graph.

Inductive path (flags : list flag) (args : list string) : Prop :=
  | path_refused :
      flat_map glob args = [] ->
      execute can_append glob CallGraphVisitor visitor_get_node visitor_filter
        from_visitor flags args
      = (inl (SystemExit 2 (abort_message args)), []) ->
      path flags args
  | path_log_fails (LOG : string) :
      flat_map glob args ≠ [] ->
      logname (parse_args flags) = Some LOG -> LOG ≠ "" ->
      can_append LOG = false ->
      execute can_append glob CallGraphVisitor visitor_get_node visitor_filter
        from_visitor flags args
      = (inl (OSError LOG), []) ->
      path flags args
  | path_not_found (FUNCTION : string) :
      let options := imply_grouped (parse_args flags) in
      let logger := setup_logger options in
      let filenames := flat_map glob args in
      let v := CallGraphVisitor filenames logger in
      let ns := namespace_of FUNCTION in
      let name := function_name_of FUNCTION in
      filenames ≠ [] ->
      log_opens can_append (parse_args flags) = true ->
      function (parse_args flags) = Some FUNCTION -> FUNCTION ≠ "" ->
      visitor_get_node v ns name = None ->
      execute can_append glob CallGraphVisitor visitor_get_node visitor_filter
        from_visitor flags args
      = (inl (NotFound ns name),
         [new_CallGraphVisitor filenames logger; call_get_node v ns name]) ->
      path flags args
  | path_focus (FUNCTION : string) (node : Node) :
      let options := imply_grouped (parse_args flags) in
      let logger := setup_logger options in
      let filenames := flat_map glob args in
      let v := CallGraphVisitor filenames logger in
      let ns := namespace_of FUNCTION in
      let name := function_name_of FUNCTION in
      let v' := visitor_filter v (Some node) (namespace (parse_args flags)) in
      let go := graph_options_of options in
      filenames ≠ [] ->
      log_opens can_append (parse_args flags) = true ->
      function (parse_args flags) = Some FUNCTION -> FUNCTION ≠ "" ->
      visitor_get_node v ns name = Some node ->
      execute can_append glob CallGraphVisitor visitor_get_node visitor_filter
        from_visitor flags args
      = (inr tt,
         [new_CallGraphVisitor filenames logger;
          call_get_node v ns name;
          call_filter v (Some node) (namespace (parse_args flags));
          call_from_visitor v' go logger]
         ++ writer_calls options (from_visitor v' go logger) logger) ->
      path flags args
  | path_namespace :
      let options := imply_grouped (parse_args flags) in
      let logger := setup_logger options in
      let filenames := flat_map glob args in
      let v := CallGraphVisitor filenames logger in
      let v' := visitor_filter v None (namespace (parse_args flags)) in
      let go := graph_options_of options in
      filenames ≠ [] ->
      log_opens can_append (parse_args flags) = true ->
      Py.truthy (function (parse_args flags)) = false ->
      Py.truthy (namespace (parse_args flags)) = true ->
      execute can_append glob CallGraphVisitor visitor_get_node visitor_filter
        from_visitor flags args
      = (inr tt,
         [new_CallGraphVisitor filenames logger;
          call_filter v None (namespace (parse_args flags));
          call_from_visitor v' go logger]
         ++ writer_calls options (from_visitor v' go logger) logger) ->
      path flags args
  | path_plain :
      let options := imply_grouped (parse_args flags) in
      let logger := setup_logger options in
      let filenames := flat_map glob args in
      let v := CallGraphVisitor filenames logger in
      let go := graph_options_of options in
      filenames ≠ [] ->
      log_opens can_append (parse_args flags) = true ->
      Py.truthy (function (parse_args flags)) = false ->
      Py.truthy (namespace (parse_args flags)) = false ->
      execute can_append glob CallGraphVisitor visitor_get_node visitor_filter
        from_visitor flags args
      = (inr tt,
         [new_CallGraphVisitor filenames logger;
          call_from_visitor v go logger]
         ++ writer_calls options (from_visitor v go logger) logger) ->
      path flags args.

End Path.

(** * Properties *)

(** ** Splitting and joining *)

Lemma append_empty_l (s : string) : "" +:+ s = s.
Proof. reflexivity. Qed.

Lemma append_String (c : ascii) (s t : string) :
  String c s +:+ t = String c (s +:+ t).
Proof. reflexivity. Qed.

Section PyFacts.

Variable sep : ascii.

Lemma split_pieces (s : string) :
  Py.split sep s = (Py.pieces sep s).1 :: (Py.pieces sep s).2.
Proof. unfold Py.split. by destruct (Py.pieces sep s). Qed.

Lemma split_nonempty (s : string) : Py.split sep s ≠ [].
Proof. by rewrite split_pieces. Qed.

Lemma split_cons_sep (s : string) :
  Py.split sep (String sep s) = "" :: Py.split sep s.
Proof.
  unfold Py.split; simpl. destruct (Py.pieces sep s) as [w ws].
  by rewrite decide_True.
Qed.

Lemma split_cons_other (c : ascii) (s : string) :
  c ≠ sep ->
  Py.split sep (String c s) =
    String c (Py.pieces sep s).1 :: (Py.pieces sep s).2.
Proof.
  intros Hc. unfold Py.split; simpl. destruct (Py.pieces sep s) as [w ws].
  by rewrite decide_False.
Qed.

(** A string without the separator is a single piece. *)
Lemma split_without (s : string) :
  Py.contains sep s = false -> Py.split sep s = [s].
Proof.
  induction s as [|c s IH]; simpl; [done|].
  intros [Hc Hs]%orb_false_elim.
  apply bool_decide_eq_false in Hc.
  rewrite split_cons_other by done.
  specialize (IH Hs). rewrite split_pieces in IH.
  by injection IH as -> ->.
Qed.

(** Cutting at one separator: the pieces before it, then those after. *)
Lemma split_at_sep (a b : string) :
  Py.split sep (a +:+ String sep b) = Py.split sep a ++ Py.split sep b.
Proof.
  induction a as [|c a IH]; [rewrite append_empty_l | rewrite append_String].
  - by rewrite split_cons_sep.
  - destruct (decide (c = sep)) as [->|Hc].
    + by rewrite !split_cons_sep, IH.
    + rewrite !split_cons_other by done.
      rewrite !split_pieces in IH.
      destruct (Py.pieces sep a) as [w ws]; simpl in *.
      injection IH as -> ->. by rewrite split_pieces.
Qed.

(** Joining the pieces with the separator gives the string back. *)
Lemma join_split (s : string) :
  Py.join (String sep "") (Py.split sep s) = s.
Proof.
  induction s as [|c s IH]; [done|].
  destruct (decide (c = sep)) as [->|Hc].
  - rewrite split_cons_sep.
    pose proof (split_nonempty s) as Hne.
    destruct (Py.split sep s) as [|w ws]; [done|].
    change (Py.join (String sep "") ("" :: w :: ws))
      with (String sep (Py.join (String sep "") (w :: ws))).
    by rewrite IH.
  - rewrite split_cons_other by done.
    rewrite split_pieces in IH.
    destruct (Py.pieces sep s) as [w ws]; simpl in *.
    destruct ws as [|w' ws]; by rewrite <- IH.
Qed.

End PyFacts.

Lemma item_last_snoc (l : list string) (x : string) :
  Py.item_last (l ++ [x]) = x.
Proof. apply last_last. Qed.

Lemma but_last_snoc (l : list string) (x : string) :
  Py.but_last (l ++ [x]) = l.
Proof. apply removelast_last. Qed.

(** The two halves of a dotted name. *)
Lemma function_name_of_dotted (ns leaf : string) :
  Py.contains dot_char leaf = false ->
  function_name_of (ns +:+ "." +:+ leaf) = leaf.
Proof.
  intros Hleaf. unfold function_name_of.
  change ("." +:+ leaf) with (String dot_char leaf).
  by rewrite split_at_sep, (split_without _ leaf), item_last_snoc.
Qed.

Lemma namespace_of_dotted (ns leaf : string) :
  Py.contains dot_char leaf = false ->
  namespace_of (ns +:+ "." +:+ leaf) = ns.
Proof.
  intros Hleaf. unfold namespace_of.
  change ("." +:+ leaf) with (String dot_char leaf).
  rewrite split_at_sep, (split_without _ leaf), but_last_snoc by done.
  apply join_split.
Qed.

Lemma function_name_of_plain (value : string) :
  Py.contains dot_char value = false -> function_name_of value = value.
Proof. intros H. unfold function_name_of. by rewrite split_without. Qed.

Lemma namespace_of_plain (value : string) :
  Py.contains dot_char value = false -> namespace_of value = "".
Proof. intros H. unfold namespace_of. by rewrite split_without. Qed.

Lemma truthy_Some (s : string) : Py.truthy (Some s) = true <-> s ≠ "".
Proof.
  unfold Py.truthy. rewrite negb_true_iff, bool_decide_eq_false. done.
Qed.

(** Every string with a dot is a prefix, a dot and a dot-free rest. *)
Lemma dotted_decompose (s : string) :
  Py.contains dot_char s = true ->
  exists ns leaf,
    s = ns +:+ "." +:+ leaf /\ Py.contains dot_char leaf = false.
Proof.
  induction s as [|c s IH]; [done|]. simpl.
  destruct (Py.contains dot_char s) eqn:Hs.
  - intros _. destruct (IH eq_refl) as (ns & leaf & -> & Hleaf).
    by exists (String c ns), leaf.
  - rewrite orb_false_r. intros ->%bool_decide_eq_true.
    by exists "", s.
Qed.

Example split_three : Py.split dot_char "a.b.f" = ["a"; "b"; "f"].
Proof. reflexivity. Qed.

Example split_empty : Py.split dot_char "" = [""].
Proof. reflexivity. Qed.

Example split_trailing_dot : Py.split dot_char "a." = ["a"; ""].
Proof. reflexivity. Qed.

Example split_leading_dot : Py.split dot_char ".f" = [""; "f"].
Proof. reflexivity. Qed.

Example join_three : Py.join "." ["a"; "b"; "f"] = "a.b.f".
Proof. reflexivity. Qed.

Example join_none : Py.join "." [] = "".
Proof. reflexivity. Qed.

Example focus_of_method :
  (namespace_of "pkg.mod.Cls.run", function_name_of "pkg.mod.Cls.run")
    = ("pkg.mod.Cls", "run").
Proof. reflexivity. Qed.

Example focus_of_plain_name :
  (namespace_of "main", function_name_of "main") = ("", "main").
Proof. reflexivity. Qed.

(** ** The option parser *)

Lemma parse_args_snoc (flags : list flag) (f : flag) :
  parse_args (flags ++ [f]) = take_action f (parse_args flags).
Proof. unfold parse_args. by rewrite foldl_app. Qed.

(** Induction on the command line from its last option, which is the one
    [parse_args] applies last. *)
Ltac by_last_option flags :=
  induction flags as [|f flags IH] using rev_ind;
  [ try done
  | rewrite parse_args_snoc;
    try (rewrite elem_of_app, list_elem_of_singleton);
    destruct f; simpl; rewrite ?IH; intuition congruence ].

Lemma dot_set (flags : list flag) :
  dot (parse_args flags) = true <-> opt_dot ∈ flags.
Proof. by_last_option flags. by rewrite elem_of_nil. Qed.

Lemma html_set (flags : list flag) :
  html (parse_args flags) = true <-> opt_html ∈ flags.
Proof. by_last_option flags. by rewrite elem_of_nil. Qed.

Lemma svg_set (flags : list flag) :
  svg (parse_args flags) = true <-> opt_svg ∈ flags.
Proof. by_last_option flags. by rewrite elem_of_nil. Qed.

Lemma tgf_set (flags : list flag) :
  tgf (parse_args flags) = true <-> opt_tgf ∈ flags.
Proof. by_last_option flags. by rewrite elem_of_nil. Qed.

Lemma yed_set (flags : list flag) :
  yed (parse_args flags) = true <-> opt_yed ∈ flags.
Proof. by_last_option flags. by rewrite elem_of_nil. Qed.

Lemma verbose_set (flags : list flag) :
  verbose (parse_args flags) = true <-> opt_verbose ∈ flags.
Proof. by_last_option flags. by rewrite elem_of_nil. Qed.

Lemma very_verbose_set (flags : list flag) :
  very_verbose (parse_args flags) = true <-> opt_very_verbose ∈ flags.
Proof. by_last_option flags. by rewrite elem_of_nil. Qed.

Lemma nested_groups_set (flags : list flag) :
  nested_groups (parse_args flags) = true <-> opt_nested_groups ∈ flags.
Proof. by_last_option flags. by rewrite elem_of_nil. Qed.

(** An attribute whose option does not occur keeps its default. *)
Lemma function_unset (flags : list flag) :
  (forall FUNCTION, opt_function FUNCTION ∉ flags) ->
  function (parse_args flags) = None.
Proof.
  induction flags as [|f flags IH] using rev_ind; [done|].
  intros Hnot. rewrite parse_args_snoc.
  assert (function (parse_args flags) = None) as IH'.
  { apply IH. intros s Hs. apply (Hnot s). set_solver. }
  destruct f; simpl; try done.
  exfalso. eapply Hnot, elem_of_app. right. by apply list_elem_of_singleton.
Qed.

Lemma namespace_unset (flags : list flag) :
  (forall NAMESPACE, opt_namespace NAMESPACE ∉ flags) ->
  namespace (parse_args flags) = None.
Proof.
  induction flags as [|f flags IH] using rev_ind; [done|].
  intros Hnot. rewrite parse_args_snoc.
  assert (namespace (parse_args flags) = None) as IH'.
  { apply IH. intros s Hs. apply (Hnot s). set_solver. }
  destruct f; simpl; try done.
  exfalso. eapply Hnot, elem_of_app. right. by apply list_elem_of_singleton.
Qed.

(** The last occurrence of an option with an argument is the one kept. *)
Lemma function_last (flags rest : list flag) (FUNCTION : string) :
  (forall s, opt_function s ∉ rest) ->
  function (parse_args (flags ++ opt_function FUNCTION :: rest))
    = Some FUNCTION.
Proof.
  induction rest as [|f rest IH] using rev_ind; intros Hnot.
  - by rewrite parse_args_snoc.
  - rewrite app_comm_cons, app_assoc, parse_args_snoc.
    assert (function (parse_args (flags ++ opt_function FUNCTION :: rest))
            = Some FUNCTION) as IH'.
    { apply IH. intros s Hs. apply (Hnot s). set_solver. }
    destruct f; simpl; try done.
    exfalso. eapply Hnot, elem_of_app. right. by apply list_elem_of_singleton.
Qed.

Lemma logname_last (flags rest : list flag) (LOG : string) :
  (forall s, opt_log s ∉ rest) ->
  logname (parse_args (flags ++ opt_log LOG :: rest)) = Some LOG.
Proof.
  induction rest as [|f rest IH] using rev_ind; intros Hnot.
  - by rewrite parse_args_snoc.
  - rewrite app_comm_cons, app_assoc, parse_args_snoc.
    assert (logname (parse_args (flags ++ opt_log LOG :: rest)) = Some LOG)
      as IH'.
    { apply IH. intros s Hs. apply (Hnot s). set_solver. }
    destruct f; simpl; try done.
    exfalso. eapply Hnot, elem_of_app. right. by apply list_elem_of_singleton.
Qed.

Lemma logname_unset (flags : list flag) :
  (forall LOG, opt_log LOG ∉ flags) -> logname (parse_args flags) = None.
Proof.
  induction flags as [|f flags IH] using rev_ind; [done|].
  intros Hnot. rewrite parse_args_snoc.
  assert (logname (parse_args flags) = None) as IH'.
  { apply IH. intros s Hs. apply (Hnot s). set_solver. }
  destruct f; simpl; try done.
  exfalso. eapply Hnot, elem_of_app. right. by apply list_elem_of_singleton.
Qed.

Lemma presentation_untouched (flags : list flag) :
  Forall (fun f => presentation_flag f = false) flags ->
  presentation_defaults (parse_args flags).
Proof.
  induction flags as [|f flags IH] using rev_ind; [by repeat split|].
  intros [Hflags Hf]%Forall_app. apply Forall_inv in Hf.
  rewrite parse_args_snoc. specialize (IH Hflags).
  destruct f; simpl in Hf; try done; apply IH.
Qed.

(** [imply_grouped] only ever writes [grouped]. *)
Lemma imply_grouped_grouped (o : Values) :
  grouped (imply_grouped o) = grouped o || nested_groups o.
Proof.
  unfold imply_grouped. destruct (nested_groups o) eqn:E; simpl.
  - by rewrite orb_true_r.
  - by rewrite orb_false_r.
Qed.

(** ** Runs of [main] *)

Lemma filter_keeps_all {A : Type} (p : A -> bool) (l : list A) :
  Forall (fun x => p x = true) l -> List.filter p l = l.
Proof. induction 1 as [|x l Hx _ IH]; simpl; [done|]. by rewrite Hx, IH. Qed.

Section Runs.

Context {Node Visitor Graph : Type}.
Variable can_append : string -> bool.
Variable glob : string -> list string.
Variable CallGraphVisitor : list string -> Logger -> Visitor.
Variable visitor_get_node : Visitor -> string -> string -> option Node.
Variable visitor_filter : Visitor -> option Node -> option string -> Visitor.
Variable from_visitor : Visitor -> gmap string bool -> Logger -> Graph.

Local Abbreviation call := (call Node Visitor Graph).
Local Abbreviation exec :=
  (execute can_append glob CallGraphVisitor visitor_get_node visitor_filter
     from_visitor).
Local Abbreviation sel :=
  (@select Node Visitor Graph visitor_get_node visitor_filter).

Ltac run_monad :=
  unfold parser_error, new_visitor, get_node, filter_visitor,
    VisualGraph_from_visitor, run, when in *;
  unfold mbind, M_bind, mret, M_ret in *;
  unfold bind, ret, raise, emit in *.

(** The writers append their calls, in the fixed order, and return. *)
Lemma write_trace (options : Values) (graph : Graph) (logger : Logger)
    (t : list call) :
  write options graph logger t
    = (inr tt, t ++ writer_calls options graph logger).
Proof.
  unfold write, writer_calls, writer_classes; run_monad.
  destruct options as [d tg sv ht ye ? ? ? ? ? ? ? ? ? ? ? ? ? ?];
    cbn [dot html svg tgf yed filename rankdir].
  destruct d, ht, sv, tg, ye; cbn; unfold writer_of; cbn;
    rewrite <- ?app_assoc, ?app_nil_r; reflexivity.
Qed.

(** Neither a focus nor a namespace: the visitor goes through untouched
    and nothing is called. *)
Lemma select_skip (options : Values) (v : Visitor) (t : list call) :
  Py.truthy (function options) = false ->
  Py.truthy (namespace options) = false ->
  sel options v t = (inr v, t).
Proof. intros Hf Hn. unfold select. by rewrite Hf, Hn. Qed.

(** A focus: it is resolved first, then the filter gets the node. *)
Lemma select_focus (options : Values) (v : Visitor) (t : list call)
    (FUNCTION : string) :
  function options = Some FUNCTION ->
  FUNCTION ≠ "" ->
  sel options v t =
    let ns := namespace_of FUNCTION in
    let name := function_name_of FUNCTION in
    match visitor_get_node v ns name with
    | Some node =>
        (inr (visitor_filter v (Some node) (namespace options)),
         t ++ [call_get_node v ns name;
               call_filter v (Some node) (namespace options)])
    | None => (inl (NotFound ns name), t ++ [call_get_node v ns name])
    end.
Proof.
  intros Hf Hne. apply truthy_Some in Hne.
  unfold select. rewrite Hf, Hne. cbn [orb]. run_monad.
  destruct (visitor_get_node v _ _); [|done].
  by rewrite <- app_assoc.
Qed.

(** A namespace without a focus: the filter is called with no node. *)
Lemma select_namespace (options : Values) (v : Visitor) (t : list call) :
  Py.truthy (function options) = false ->
  Py.truthy (namespace options) = true ->
  sel options v t =
    (inr (visitor_filter v None (namespace options)),
     t ++ [call_filter v None (namespace options)]).
Proof.
  intros Hf Hn. unfold select. rewrite Hf, Hn. cbn [orb].
  run_monad. destruct (function options) as [f|]; [|done].
  by rewrite Hf.
Qed.

(** The logger is configured when the log file, if any, opens, and
    the exception of the opening ends the configuration otherwise. *)
Lemma log_opens_imply_grouped (o : Values) :
  log_opens can_append (imply_grouped o) = log_opens can_append o.
Proof. unfold log_opens, imply_grouped. by destruct (nested_groups o). Qed.

Lemma configure_logger_opens (flags : list flag) (t : list call) :
  log_opens can_append (parse_args flags) = true ->
  configure_logger can_append (imply_grouped (parse_args flags)) t
  = (inr (setup_logger (imply_grouped (parse_args flags))), t).
Proof.
  rewrite <- log_opens_imply_grouped.
  unfold log_opens, configure_logger, setup_logger, new_FileHandler.
  destruct (logname (imply_grouped (parse_args flags))) as [LOG|]; [|done].
  destruct (Py.truthy (Some LOG)); [|done]. by intros ->.
Qed.

Lemma log_fails (flags : list flag) :
  log_opens can_append (parse_args flags) = false ->
  exists LOG,
    logname (parse_args flags) = Some LOG /\ LOG ≠ ""
    /\ can_append LOG = false.
Proof.
  unfold log_opens.
  destruct (logname (parse_args flags)) as [LOG|]; [|done].
  destruct (Py.truthy (Some LOG)) eqn:Hne; [|done].
  apply truthy_Some in Hne. by exists LOG.
Qed.

Lemma configure_logger_fails (flags : list flag) (t : list call)
    (LOG : string) :
  logname (parse_args flags) = Some LOG -> LOG ≠ "" ->
  can_append LOG = false ->
  configure_logger can_append (imply_grouped (parse_args flags)) t
  = (inl (OSError LOG), t).
Proof.
  intros Hlog Hne%truthy_Some Hcannot.
  assert (logname (imply_grouped (parse_args flags)) = Some LOG) as Hlog'.
  { unfold imply_grouped.
    by destruct (nested_groups (parse_args flags)). }
  unfold configure_logger, new_FileHandler.
  by rewrite Hlog', Hne, Hcannot.
Qed.

(** The two input checks. *)
Lemma execute_refused (flags : list flag) (args : list string) :
  args = [] \/ flat_map glob args = [] ->
  exec flags args = (inl (SystemExit 2 (abort_message args)), []).
Proof.
  intros H. unfold execute, main; run_monad.
  destruct args as [|a args]; [done|].
  destruct H as [|H]; [done|]. rewrite H. reflexivity.
Qed.

(** A run that passes them is the analysis, the selection, the
    presentation and the writers. *)
Lemma execute_accepted (flags : list flag) (args : list string) :
  args ≠ [] -> flat_map glob args ≠ [] ->
  log_opens can_append (parse_args flags) = true ->
  exec flags args =
    let options := imply_grouped (parse_args flags) in
    let logger := setup_logger options in
    let filenames := flat_map glob args in
    match sel options (CallGraphVisitor filenames logger)
            [new_CallGraphVisitor filenames logger] with
    | (inl e, t) => (inl e, t)
    | (inr v, t) =>
        let graph_options := graph_options_of options in
        (inr tt,
         t ++ call_from_visitor v graph_options logger
           :: writer_calls options
                (from_visitor v graph_options logger) logger)
    end.
Proof.
  intros Hargs Hfiles Hlog. unfold execute, main; run_monad.
  destruct args as [|a args]; [done|].
  destruct (flat_map glob (a :: args)) as [|fn fns] eqn:E; [done|].
  cbn [length].
  rewrite (bool_decide_eq_false_2 (S (length args) = 0)) by done.
  rewrite (bool_decide_eq_false_2 (S (length fns) = 0)) by done.
  rewrite andb_false_r. rewrite configure_logger_opens by done.
  cbn [app].
  destruct (select _ _ _ _ _) as [[e|v] t]; [done|].
  rewrite write_trace. by rewrite <- app_assoc.
Qed.

(** A run that passes them but cannot open its log file ends there,
    before it has called anything. *)
Lemma execute_log_fails (flags : list flag) (args : list string)
    (LOG : string) :
  args ≠ [] -> flat_map glob args ≠ [] ->
  logname (parse_args flags) = Some LOG -> LOG ≠ "" ->
  can_append LOG = false ->
  exec flags args = (inl (OSError LOG), []).
Proof.
  intros Hargs Hfiles Hlog Hne Hcannot. unfold execute, main; run_monad.
  destruct args as [|a args]; [done|].
  destruct (flat_map glob (a :: args)) as [|fn fns] eqn:E; [done|].
  cbn [length].
  rewrite (bool_decide_eq_false_2 (S (length args) = 0)) by done.
  rewrite (bool_decide_eq_false_2 (S (length fns) = 0)) by done.
  rewrite andb_false_r.
  by rewrite (configure_logger_fails _ _ LOG).
Qed.

(** Whatever the selection does, it only adds look-ups and filter calls to
    the trace. *)
Lemma select_trace (options : Values) (v : Visitor) (t : list call) :
  exists ext, (sel options v t).2 = t ++ ext
              /\ Forall (fun c => is_selection c = true) ext.
Proof.
  destruct (Py.truthy (function options)) eqn:Hft.
  - destruct (function options) as [f|] eqn:Hf; [|done].
    apply truthy_Some in Hft.
    rewrite (select_focus _ _ _ f) by done. cbn zeta.
    destruct (visitor_get_node v _ _); simpl; eauto.
  - destruct (Py.truthy (namespace options)) eqn:Hn.
    + rewrite select_namespace by done. simpl. eauto.
    + rewrite select_skip by done. exists []. by rewrite app_nil_r.
Qed.

Lemma writer_calls_runs (options : Values) (graph : Graph)
    (logger : Logger) :
  Forall (fun c : call => is_run c = true)
    (writer_calls options graph logger).
Proof.
  unfold writer_calls. apply Forall_fmap, Forall_forall. by intros c _.
Qed.

Lemma imply_grouped_keeps (o : Values) :
  dot (imply_grouped o) = dot o /\ html (imply_grouped o) = html o /\
  svg (imply_grouped o) = svg o /\ tgf (imply_grouped o) = tgf o /\
  yed (imply_grouped o) = yed o /\
  function (imply_grouped o) = function o /\
  namespace (imply_grouped o) = namespace o /\
  logname (imply_grouped o) = logname o /\
  verbose (imply_grouped o) = verbose o /\
  very_verbose (imply_grouped o) = very_verbose o /\
  nested_groups (imply_grouped o) = nested_groups o.
Proof.
  unfold imply_grouped.
  destruct (nested_groups o) eqn:E; simpl; by rewrite ?E.
Qed.

(** A format is served exactly when its flag is on the command line. *)
Lemma requested_flag (flags : list flag) (c : writer_class) :
  requested (imply_grouped (parse_args flags)) c
    = bool_decide (format_flag c ∈ flags).
Proof.
  pose proof (imply_grouped_keeps (parse_args flags))
    as (Hd & Hh & Hs & Ht & Hy & _).
  apply eq_true_iff_eq. rewrite bool_decide_eq_true.
  destruct c; simpl; rewrite ?Hd, ?Hh, ?Hs, ?Ht, ?Hy.
  - apply dot_set.
  - apply html_set.
  - apply svg_set.
  - apply tgf_set.
  - apply yed_set.
Qed.

(** The call to the presentation builder, when there is one, closes the
    selection and opens the writers; its dictionary and logger are those
    [main] computed from the options. *)
Lemma from_visitor_call (flags : list flag) (args : list string)
    (v : Visitor) (go : gmap string bool) (lg : Logger) :
  call_from_visitor v go lg ∈ (exec flags args).2 ->
  let options := imply_grouped (parse_args flags) in
  go = graph_options_of options /\ lg = setup_logger options /\
  exists pre,
    Forall (fun c => is_new_visitor c || is_selection c = true) pre /\
    exec flags args =
      (inr tt,
       pre ++ call_from_visitor v go lg
         :: writer_calls options (from_visitor v go lg) lg).
Proof.
  intros Hin options.
  destruct (decide (args = [])) as [Hargs|Hargs].
  { rewrite execute_refused in Hin by auto. by apply elem_of_nil in Hin. }
  destruct (decide (flat_map glob args = [])) as [Hfiles|Hfiles].
  { rewrite execute_refused in Hin by auto. by apply elem_of_nil in Hin. }
  destruct (log_opens can_append (parse_args flags)) eqn:Hlog; cycle 1.
  { destruct (log_fails _ Hlog) as (LOG & HL & HLne & HLno).
    rewrite (execute_log_fails _ _ LOG) in Hin by done.
    by apply elem_of_nil in Hin. }
  rewrite execute_accepted in * by done. cbn zeta in *.
  fold options in Hin |- *.
  set (logger := setup_logger options) in *.
  set (filenames := flat_map glob args) in *.
  destruct (select_trace options (CallGraphVisitor filenames logger)
              [new_CallGraphVisitor filenames logger]) as (ext & Ht & Hext).
  destruct (sel options _ _) as [[e|v'] t]; simpl in Ht; subst t.
  - simpl in Hin. apply elem_of_cons in Hin as [?|Hin]; [done|].
    apply (proj1 (Forall_forall _ _) Hext) in Hin. done.
  - simpl in Hin. rewrite elem_of_cons, elem_of_app, elem_of_cons in Hin.
    destruct Hin as [?|[Hin|[Heq|Hin]]]; [done| | |].
    + apply (proj1 (Forall_forall _ _) Hext) in Hin. done.
    + injection Heq as -> -> ->. repeat split; [done..|].
      exists (new_CallGraphVisitor filenames logger :: ext). split; [|done].
      constructor; [done|]. eapply Forall_impl; [exact Hext|].
      intros c Hc. cbn beta. rewrite Hc. apply orb_true_r.
    + apply (proj1 (Forall_forall _ _) (writer_calls_runs _ _ _)) in Hin.
      done.
Qed.

Lemma writer_calls_no_filter (options : Values) (graph : Graph)
    (logger : Logger) :
  List.filter is_filter (writer_calls options graph logger : list call) = [].
Proof.
  unfold writer_calls.
  induction (List.filter (requested options) writer_classes); by simpl.
Qed.

Lemma writer_calls_no_get_node (options : Values) (graph : Graph)
    (logger : Logger) :
  List.filter is_get_node (writer_calls options graph logger : list call)
    = [].
Proof.
  unfold writer_calls.
  induction (List.filter (requested options) writer_classes); by simpl.
Qed.

(** The seven entries of the dictionary. *)
Lemma graph_options_lookup (o : Values) :
  graph_options_of o !! "draw_defines" = Some (draw_defines o) /\
  graph_options_of o !! "draw_uses" = Some (draw_uses o) /\
  graph_options_of o !! "colored" = Some (colored o) /\
  graph_options_of o !! "grouped_alt" = Some (grouped_alt o) /\
  graph_options_of o !! "grouped" = Some (grouped o) /\
  graph_options_of o !! "nested_groups" = Some (nested_groups o) /\
  graph_options_of o !! "annotated" = Some (annotated o).
Proof. unfold graph_options_of. repeat split; by simplify_map_eq. Qed.

Lemma graph_options_dom (o : Values) :
  dom (graph_options_of o) =
    ({[ "draw_defines"; "draw_uses"; "colored"; "grouped_alt"; "grouped";
        "nested_groups"; "annotated" ]} : gset string).
Proof. unfold graph_options_of. rewrite !dom_insert_L, dom_singleton_L. done. Qed.

(** The run with a focus: the look-up comes first; when it fails the run
    ends there, otherwise the filter receives the node it returned. *)
Lemma execute_focus (flags : list flag) (args : list string)
    (FUNCTION : string) :
  function (parse_args flags) = Some FUNCTION -> FUNCTION ≠ "" ->
  args ≠ [] -> flat_map glob args ≠ [] ->
  log_opens can_append (parse_args flags) = true ->
  let options := imply_grouped (parse_args flags) in
  let logger := setup_logger options in
  let filenames := flat_map glob args in
  let v := CallGraphVisitor filenames logger in
  let ns := namespace_of FUNCTION in
  let name := function_name_of FUNCTION in
  exec flags args =
    match visitor_get_node v ns name with
    | Some node =>
        let v' := visitor_filter v (Some node) (namespace options) in
        let go := graph_options_of options in
        (inr tt,
         [new_CallGraphVisitor filenames logger;
          call_get_node v ns name;
          call_filter v (Some node) (namespace options);
          call_from_visitor v' go logger]
         ++ writer_calls options (from_visitor v' go logger) logger)
    | None =>
        (inl (NotFound ns name),
         [new_CallGraphVisitor filenames logger; call_get_node v ns name])
    end.
Proof.
  intros Hf Hne Hargs Hfiles Hlog options logger filenames v ns name.
  rewrite execute_accepted by done. cbn zeta. fold options logger filenames v.
  rewrite (select_focus _ _ _ FUNCTION);
    [|by rewrite <- Hf; apply imply_grouped_keeps|done].
  cbn zeta. fold ns name. by destruct (visitor_get_node v ns name).
Qed.

(** The run without a focus never looks anything up. *)
Lemma execute_no_focus (flags : list flag) (args : list string) :
  Py.truthy (function (parse_args flags)) = false ->
  List.filter is_get_node (exec flags args).2 = [].
Proof.
  intros Hf.
  destruct (decide (args = [])) as [Hargs|Hargs];
    [by rewrite execute_refused by auto|].
  destruct (decide (flat_map glob args = [])) as [Hfiles|Hfiles];
    [by rewrite execute_refused by auto|].
  destruct (log_opens can_append (parse_args flags)) eqn:Hlog; cycle 1.
  { destruct (log_fails _ Hlog) as (LOG & HL & HLne & HLno).
    by rewrite (execute_log_fails _ _ LOG). }
  rewrite execute_accepted by done. cbn zeta.
  assert (Py.truthy (function (imply_grouped (parse_args flags))) = false)
    as Hf'.
  { rewrite <- Hf. f_equal. apply imply_grouped_keeps. }
  destruct (Py.truthy (namespace (imply_grouped (parse_args flags))))
    eqn:Hn.
  - rewrite select_namespace by done. simpl.
    apply writer_calls_no_get_node.
  - rewrite select_skip by done. simpl. apply writer_calls_no_get_node.
Qed.

Lemma dotted_nonempty (ns leaf : string) : ns +:+ "." +:+ leaf ≠ "".
Proof. by destruct ns. Qed.

(** The run with neither focus nor namespace: analysis, presentation,
    writers. *)
Lemma execute_plain (flags : list flag) (args : list string) :
  Py.truthy (function (parse_args flags)) = false ->
  Py.truthy (namespace (parse_args flags)) = false ->
  args ≠ [] -> flat_map glob args ≠ [] ->
  log_opens can_append (parse_args flags) = true ->
  let options := imply_grouped (parse_args flags) in
  let logger := setup_logger options in
  let filenames := flat_map glob args in
  let v := CallGraphVisitor filenames logger in
  let graph := from_visitor v (graph_options_of options) logger in
  exec flags args =
    (inr tt,
     new_CallGraphVisitor filenames logger
       :: call_from_visitor v (graph_options_of options) logger
       :: writer_calls options graph logger).
Proof.
  intros Hf Hn Hargs Hfiles Hlog options logger filenames v graph.
  pose proof (imply_grouped_keeps (parse_args flags))
    as (_ & _ & _ & _ & _ & Hf' & Hn' & _).
  rewrite execute_accepted by done. cbn zeta.
  rewrite select_skip; [done| |].
  - by rewrite Hf'.
  - by rewrite Hn'.
Qed.

(** In such a run the presentation builder is called, on the visitor the
    analysis returned. *)
Lemma execute_plain_builds (flags : list flag) (args : list string) :
  Py.truthy (function (parse_args flags)) = false ->
  Py.truthy (namespace (parse_args flags)) = false ->
  args ≠ [] -> flat_map glob args ≠ [] ->
  log_opens can_append (parse_args flags) = true ->
  let options := imply_grouped (parse_args flags) in
  let logger := setup_logger options in
  call_from_visitor (CallGraphVisitor (flat_map glob args) logger)
    (graph_options_of options) logger ∈ (exec flags args).2.
Proof.
  intros Hf Hn Hargs Hfiles Hlog options logger.
  rewrite execute_plain by done. cbn [snd].
  apply elem_of_cons. right. apply elem_of_cons. by left.
Qed.

(** C1: with neither [--function] nor [--namespace] on the command line,
    [main] makes no filter call, and the visitor it hands to the
    presentation builder is the one the analysis returned, so the builder
    sees the nodes and edges of the unfiltered analysis graph.  (The run
    is one that reaches the analysis: it has input files, and its log
    file, if it names one, opens.) *)
Theorem C1_no_focus_no_namespace_is_identity (flags : list flag)
    (args : list string) :
  (forall FUNCTION, opt_function FUNCTION ∉ flags) ->
  (forall NAMESPACE, opt_namespace NAMESPACE ∉ flags) ->
  args ≠ [] -> flat_map glob args ≠ [] ->
  log_opens can_append (parse_args flags) = true ->
  let options := imply_grouped (parse_args flags) in
  let logger := setup_logger options in
  let filenames := flat_map glob args in
  let v := CallGraphVisitor filenames logger in
  let graph := from_visitor v (graph_options_of options) logger in
  exec flags args =
    (inr tt,
     new_CallGraphVisitor filenames logger
       :: call_from_visitor v (graph_options_of options) logger
       :: writer_calls options graph logger)
  /\ List.filter is_filter (exec flags args).2 = [].
Proof.
  intros Hf Hn Hargs Hfiles Hlog options logger filenames v graph.
  assert (exec flags args =
    (inr tt,
     new_CallGraphVisitor filenames logger
       :: call_from_visitor v (graph_options_of options) logger
       :: writer_calls options graph logger)) as Hrun.
  { apply execute_plain; [| |done..].
    - by rewrite function_unset.
    - by rewrite namespace_unset. }
  split; [done|]. rewrite Hrun. simpl. apply writer_calls_no_filter.
Qed.

(** C2: with no filename argument, or with arguments whose expansion by
    [glob] is empty, the run ends at once in [parser.error] with the
    message for that case; the trace is empty, so no [CallGraphVisitor]
    has been constructed. *)
Theorem C2_no_input_files_aborts (flags : list flag) (args : list string) :
  args = [] \/ flat_map glob args = [] ->
  exec flags args = (inl (SystemExit 2 (abort_message args)), [])
  /\ abort_message args ≠ ""
  /\ List.filter is_new_visitor (exec flags args).2 = [].
Proof.
  intros H. rewrite execute_refused by done.
  repeat split. by destruct args.
Qed.

(** C4: [draw_defines] and [draw_uses] default to true and [colored],
    [grouped], [nested_groups], [grouped_alt], [annotated] to false; a
    command line with none of the options that write them hands the
    presentation builder a dictionary of exactly these seven keys with
    these values. *)
Theorem C4_presentation_option_defaults (flags : list flag)
    (args : list string) (v : Visitor) (go : gmap string bool)
    (lg : Logger) :
  Forall (fun f => presentation_flag f = false) flags ->
  call_from_visitor v go lg ∈ (exec flags args).2 ->
  graph_options_of defaults = default_graph_options
  /\ go = default_graph_options
  /\ dom go = ({[ "draw_defines"; "draw_uses"; "colored"; "grouped_alt";
                  "grouped"; "nested_groups"; "annotated" ]} : gset string).
Proof.
  intros Hflags Hin. split; [done|].
  apply from_visitor_call in Hin as (-> & _ & _).
  split; [|apply graph_options_dom].
  destruct (presentation_untouched flags Hflags)
    as (Hdd & Hdu & Hc & Hga & Hg & Hng & Ha).
  unfold imply_grouped. rewrite Hng. unfold graph_options_of.
  by rewrite Hdd, Hdu, Hc, Hga, Hg, Hng, Ha.
Qed.

(** C5: whenever [--nested-groups] is on the command line, the dictionary
    handed to the presentation builder has [grouped] true (and
    [nested_groups] true), whether or not [--grouped] was given. *)
Theorem C5_nested_groups_implies_grouped (flags : list flag)
    (args : list string) (v : Visitor) (go : gmap string bool)
    (lg : Logger) :
  opt_nested_groups ∈ flags ->
  call_from_visitor v go lg ∈ (exec flags args).2 ->
  go !! "nested_groups" = Some true /\ go !! "grouped" = Some true.
Proof.
  intros Hflag Hin. apply from_visitor_call in Hin as (-> & _ & _).
  apply nested_groups_set in Hflag.
  pose proof (graph_options_lookup (imply_grouped (parse_args flags)))
    as (_ & _ & _ & _ & Hg & Hng & _).
  pose proof (imply_grouped_keeps (parse_args flags)) as Hkeep.
  rewrite Hg, Hng, imply_grouped_grouped.
  replace (nested_groups (imply_grouped (parse_args flags)))
    with (nested_groups (parse_args flags)) by (symmetry; apply Hkeep).
  by rewrite Hflag, orb_true_r.
Qed.

(** C6: a [--function] value with a dot is cut at its last dot: the leaf
    name is the dot-free piece after it, the namespace is everything
    before it (the other pieces, joined by dots again), and the one
    look-up of the run (a run that reaches it: input files, and a log
    file, if one is named, that opens) is made with that pair. *)
Theorem C6_dotted_focus_split_at_last_dot (flags : list flag)
    (args : list string) (FUNCTION : string) :
  Py.contains dot_char FUNCTION = true ->
  function (parse_args flags) = Some FUNCTION ->
  args ≠ [] -> flat_map glob args ≠ [] ->
  log_opens can_append (parse_args flags) = true ->
  let logger := setup_logger (imply_grouped (parse_args flags)) in
  let v := CallGraphVisitor (flat_map glob args) logger in
  let leaf := function_name_of FUNCTION in
  let ns := namespace_of FUNCTION in
  FUNCTION = ns +:+ "." +:+ leaf
  /\ Py.contains dot_char leaf = false
  /\ Py.split dot_char FUNCTION = Py.split dot_char ns ++ [leaf]
  /\ (forall ns' leaf',
        FUNCTION = ns' +:+ "." +:+ leaf' ->
        Py.contains dot_char leaf' = false -> ns' = ns /\ leaf' = leaf)
  /\ List.filter is_get_node (exec flags args).2 = [call_get_node v ns leaf].
Proof.
  intros Hdot Hf Hargs Hfiles Hlog logger v leaf ns.
  destruct (dotted_decompose FUNCTION Hdot) as (ns0 & leaf0 & HF & Hleaf0).
  assert (leaf = leaf0) as Hleaf
    by (unfold leaf; rewrite HF; by apply function_name_of_dotted).
  assert (ns = ns0) as Hns
    by (unfold ns; rewrite HF; by apply namespace_of_dotted).
  split; [by rewrite Hleaf, Hns|]. split; [by rewrite Hleaf|].
  split; [|split].
  - rewrite Hleaf, Hns, HF.
    change ("." +:+ leaf0) with (String dot_char leaf0).
    by rewrite split_at_sep, (split_without _ leaf0).
  - intros ns' leaf' HF' Hleaf'. unfold ns, leaf. rewrite HF'.
    by rewrite namespace_of_dotted, function_name_of_dotted.
  - assert (FUNCTION ≠ "") as Hne by (rewrite HF; apply dotted_nonempty).
    rewrite (execute_focus _ _ _ Hf Hne) by done.
    cbn zeta. fold logger v ns leaf.
    destruct (visitor_get_node v ns leaf); simpl; [|done].
    by rewrite writer_calls_no_get_node.
Qed.

(** C8: once the presentation graph is built, the rest of the run is the
    writers of the formats whose flag is on the command line, each given
    that same graph, in the order dot, html, svg, tgf, yed; no writer runs
    before, and with no format flag no writer runs at all. *)
Theorem C8_writers_cumulative_in_fixed_order (flags : list flag)
    (args : list string) (v : Visitor) (go : gmap string bool)
    (lg : Logger) :
  call_from_visitor v go lg ∈ (exec flags args).2 ->
  let options := imply_grouped (parse_args flags) in
  let graph := from_visitor v go lg in
  let chosen :=
    List.filter (fun c => bool_decide (format_flag c ∈ flags))
      [DotWriter; HTMLWriter; SVGWriter; TgfWriter; YedWriter] in
  (exists pre,
     List.filter is_run pre = [] /\
     exec flags args =
       (inr tt,
        pre ++ call_from_visitor v go lg
          :: ((fun c => call_run (writer_of options graph lg c)) <$> chosen)))
  /\ List.filter is_run (exec flags args).2
       = (fun c => call_run (writer_of options graph lg c)) <$> chosen
  /\ (chosen = [] -> List.filter is_run (exec flags args).2 = []).
Proof.
  intros Hin options graph chosen.
  apply from_visitor_call in Hin as (Hgo & Hlg & pre & Hpre & Hrun).
  fold options in Hgo, Hlg, Hrun. fold graph in Hrun.
  assert ((writer_calls options graph lg : list call)
          = (fun c => call_run (writer_of options graph lg c)) <$> chosen)
    as Hcalls.
  { unfold writer_calls, chosen, writer_classes. f_equal.
    apply List.filter_ext. intros c. apply requested_flag. }
  assert (List.filter is_run pre = []) as Hnone.
  { clear Hrun. induction Hpre as [|c pre Hc _ IH]; [done|].
    destruct c; simpl in *; done. }
  assert (List.filter is_run (exec flags args).2
          = (fun c => call_run (writer_of options graph lg c)) <$> chosen)
    as Hruns.
  { rewrite Hrun. cbn [snd]. rewrite List.filter_app, Hnone. simpl.
    rewrite <- Hcalls.
    apply filter_keeps_all, writer_calls_runs. }
  split; [|split].
  - exists pre. by rewrite <- Hcalls.
  - done.
  - intros Hnil. by rewrite Hruns, Hnil.
Qed.

(** C9, amended: a [--function] value without a dot has the empty
    namespace and is its own leaf name; when it is not empty the one
    look-up of the run is [get_node("", value)]; the empty value counts as
    no focus and nothing is looked up.  (The run is one that reaches the
    selection: input files, and a log file, if one is named, that
    opens.) *)
Theorem C9_plain_focus_has_empty_namespace (flags : list flag)
    (args : list string) (value : string) :
  Py.contains dot_char value = false ->
  function (parse_args flags) = Some value ->
  args ≠ [] -> flat_map glob args ≠ [] ->
  log_opens can_append (parse_args flags) = true ->
  let logger := setup_logger (imply_grouped (parse_args flags)) in
  let v := CallGraphVisitor (flat_map glob args) logger in
  namespace_of value = "" /\ function_name_of value = value
  /\ List.filter is_get_node (exec flags args).2
       = if bool_decide (value = "") then [] else [call_get_node v "" value].
Proof.
  intros Hplain Hf Hargs Hfiles Hlog logger v.
  pose proof (function_name_of_plain value Hplain) as Hname.
  pose proof (namespace_of_plain value Hplain) as Hns.
  repeat split; [done..|].
  case_bool_decide as Hempty.
  - apply execute_no_focus. by rewrite Hf, Hempty.
  - rewrite (execute_focus _ _ _ Hf Hempty) by done.
    cbn zeta. rewrite Hname, Hns. fold logger v.
    destruct (visitor_get_node v "" value); simpl; [|done].
    by rewrite writer_calls_no_get_node.
Qed.

(** C10, amended: the level [main] sets is DEBUG with [--very-verbose],
    else INFO with [--verbose], else WARN.  When the [--log] value, if
    any, can be opened, lines 110-120 return a logger with the stream
    handler and, for a non-empty name, a file handler after it, and a run
    with input files gives that logger to the analysis; an empty value
    adds no file handler.  A non-empty name that cannot be opened makes
    [logging.FileHandler] raise, and the run ends there, before any
    analysis. *)
Theorem C10_logger_level_and_handlers (flags : list flag)
    (args : list string) :
  let options := imply_grouped (parse_args flags) in
  let logger := setup_logger options in
  (log_opens can_append (parse_args flags) = true ->
   (forall t : list call,
      configure_logger can_append options t = (inr logger, t))
   /\ (args ≠ [] -> flat_map glob args ≠ [] ->
       (exec flags args).2 !! 0
         = Some (new_CallGraphVisitor (flat_map glob args) logger))
   /\ log_handlers logger =
        StreamHandler ::
        match logname (parse_args flags) with
        | Some LOG =>
            if bool_decide (LOG = "") then [] else [FileHandler LOG]
        | None => []
        end)
  /\ (forall LOG,
        logname (parse_args flags) = Some LOG -> LOG ≠ "" ->
        can_append LOG = false ->
        (forall t : list call,
           configure_logger can_append options t = (inl (OSError LOG), t))
        /\ (args ≠ [] -> flat_map glob args ≠ [] ->
            exec flags args = (inl (OSError LOG), [])))
  /\ log_level logger = requested_level flags.
Proof.
  intros options logger. split; [|split].
  - intros Hlog. split; [|split].
    + intros t. by apply configure_logger_opens.
    + intros Hargs Hfiles.
      rewrite execute_accepted by done. cbn zeta. fold options logger.
      destruct (select_trace options
                  (CallGraphVisitor (flat_map glob args) logger)
                  [new_CallGraphVisitor (flat_map glob args) logger])
        as (ext & Ht & _).
      destruct (sel _ _ _) as [[e|v] t]; simpl in Ht; by subst t.
    + unfold logger, options, setup_logger.
      pose proof (imply_grouped_keeps (parse_args flags))
        as (_ & _ & _ & _ & _ & _ & _ & Hl & Hv & Hvv & _).
      rewrite Hl, Hv, Hvv.
      destruct (logname (parse_args flags)) as [LOG|];
        [unfold Py.truthy; destruct (bool_decide (LOG = ""))|];
        by destruct (very_verbose (parse_args flags)),
                    (verbose (parse_args flags)).
  - intros LOG HL Hne Hcannot. split.
    { intros t. by apply configure_logger_fails. }
    intros Hargs Hfiles. by apply execute_log_fails.
  - unfold logger, options, setup_logger, requested_level.
    pose proof (imply_grouped_keeps (parse_args flags))
      as (_ & _ & _ & _ & _ & _ & _ & Hl & Hv & Hvv & _).
    rewrite Hl, Hv, Hvv.
    assert (log_level
              (if very_verbose (parse_args flags)
               then setLevel DEBUG getLogger
               else if verbose (parse_args flags)
                    then setLevel INFO getLogger
                    else setLevel WARN getLogger)
            = if bool_decide (opt_very_verbose ∈ flags) then DEBUG
              else if bool_decide (opt_verbose ∈ flags) then INFO
              else WARN) as <-.
    { pose proof (very_verbose_set flags) as Hvs.
      pose proof (verbose_set flags) as Hs.
      destruct (very_verbose (parse_args flags)).
      - by rewrite bool_decide_eq_true_2 by (by apply Hvs).
      - rewrite bool_decide_eq_false_2 by (by rewrite <- Hvs).
        destruct (verbose (parse_args flags)).
        + by rewrite bool_decide_eq_true_2 by (by apply Hs).
        + by rewrite bool_decide_eq_false_2 by (by rewrite <- Hs). }
    destruct (logname (parse_args flags)) as [LOG|]; [|done].
    unfold Py.truthy. by destruct (bool_decide (LOG = "")).
Qed.

End Runs.

(** Of the command line, a run that passes the input checks uses the
    options and the expanded list of file names, nothing else: two command
    lines with the same options whose patterns expand to the same files,
    possibly in different directories, make the same calls. *)
Lemma execute_depends_on_filenames {Node Visitor Graph : Type}
    (can_append : string -> bool) (glob1 glob2 : string -> list string)
    (CallGraphVisitor : list string -> Logger -> Visitor)
    (visitor_get_node : Visitor -> string -> string -> option Node)
    (visitor_filter : Visitor -> option Node -> option string -> Visitor)
    (from_visitor : Visitor -> gmap string bool -> Logger -> Graph)
    (flags : list flag) (args1 args2 : list string) :
  flat_map glob1 args1 = flat_map glob2 args2 ->
  flat_map glob1 args1 ≠ [] ->
  execute can_append glob1 CallGraphVisitor visitor_get_node visitor_filter
    from_visitor flags args1
  = execute can_append glob2 CallGraphVisitor visitor_get_node visitor_filter
      from_visitor flags args2.
Proof.
  intros Hsame Hfiles.
  assert (args1 ≠ []) by (by intros ->).
  assert (args2 ≠ []) by (intros ->; by rewrite Hsame in Hfiles).
  destruct (log_opens can_append (parse_args flags)) eqn:Hlog.
  - rewrite !execute_accepted by (done || by rewrite <- Hsame).
    by rewrite Hsame.
  - destruct (log_fails can_append flags Hlog) as (LOG & HL & Hne & Hno).
    rewrite (execute_log_fails can_append glob1 _ _ _ _ flags args1 LOG),
      (execute_log_fails can_append glob2 _ _ _ _ flags args2 LOG);
      done || by rewrite <- Hsame.
Qed.

(** ** The look-up of the focus *)

Lemma contains_append_sep (sep : ascii) (a b : string) :
  Py.contains sep (a +:+ String sep b) = true.
Proof.
  induction a as [|c a IH]; [rewrite append_empty_l | rewrite append_String];
    simpl.
  - by rewrite bool_decide_eq_true_2.
  - by rewrite IH, orb_true_r.
Qed.

(** What [matches] tests, in qualified names. *)
Lemma matches_qualified (table : list Entity) (ns n : string) (e : Entity) :
  ns ≠ "" ->
  matches table ns n e = true <-> qualified_name e = ns +:+ "." +:+ n.
Proof.
  intros Hns. unfold matches. rewrite bool_decide_eq_false_2 by done.
  apply bool_decide_eq_true.
Qed.

Lemma matches_top_level (table : list Entity) (n : string) (e : Entity) :
  e ∈ table ->
  matches table "" n e = true <-> top_level_named table n e.
Proof.
  intros He. unfold matches, top_level_named, top_level, enclosing,
    display_name.
  rewrite bool_decide_eq_true_2 by done.
  rewrite !andb_true_iff, existsb_exists, bool_decide_eq_true. split.
  - intros [[Hdot (m & Hm & [Hmod Hq%bool_decide_eq_true]%andb_true_iff)]
              Hname].
    destruct (dotted_decompose _ Hdot) as (ns0 & leaf0 & Hqn & Hleaf).
    rewrite Hqn in Hname, Hq.
    fold (function_name_of (ns0 +:+ "." +:+ leaf0)) in Hname.
    fold (namespace_of (ns0 +:+ "." +:+ leaf0)) in Hq.
    rewrite function_name_of_dotted in Hname by done.
    rewrite namespace_of_dotted in Hq by done. subst leaf0.
    split; [done|]. split; [done|]. exists m.
    split; [by apply list_elem_of_In|]. split.
    + unfold is_module in Hmod. by destruct (kind m).
    + by rewrite Hq.
  - intros (_ & Hn & m & Hm & Hmod & Hq). rewrite Hq.
    fold (function_name_of (qualified_name m +:+ "." +:+ n)).
    fold (namespace_of (qualified_name m +:+ "." +:+ n)).
    rewrite function_name_of_dotted, namespace_of_dotted by done.
    split; [|done]. split.
    + change ("." +:+ n) with (String dot_char n).
      apply contains_append_sep.
    + exists m. split; [by apply list_elem_of_In|].
      unfold is_module. rewrite Hmod. by rewrite bool_decide_eq_true_2.
Qed.

(** A filter that keeps exactly one element of a list without
    repetition. *)
Lemma filter_nil_iff {A : Type} (p : A -> bool) (l : list A) :
  List.filter p l = [] <-> forall x, x ∈ l -> p x = false.
Proof.
  induction l as [|a l IH]; simpl.
  - split; [|done]. intros _ x Hx. by apply elem_of_nil in Hx.
  - destruct (p a) eqn:Ha; split.
    + done.
    + intros H. specialize (H a (list_elem_of_here a l)). congruence.
    + intros Hnil x [->|Hx]%elem_of_cons; [done|]. by apply IH.
    + intros H. apply IH. intros x Hx. apply H. by right.
Qed.

Lemma filter_one_iff {A : Type} (p : A -> bool) (l : list A) (e : A) :
  NoDup l ->
  List.filter p l = [e]
  <-> e ∈ l /\ p e = true /\ forall x, x ∈ l -> p x = true -> x = e.
Proof.
  intros Hnodup. split.
  - intros Hone.
    assert (forall x, x ∈ l -> p x = true -> x = e) as Huniq.
    { intros x Hx Hp.
      assert (In x (List.filter p l)) as Hin
        by (apply filter_In; split; [by apply list_elem_of_In|done]).
      rewrite Hone in Hin. by destruct Hin as [->|[]]. }
    assert (In e (List.filter p l)) as Hin by (rewrite Hone; by left).
    apply filter_In in Hin as [Hin Hp].
    split; [by apply list_elem_of_In|]. by split.
  - induction Hnodup as [|a l Ha Hnodup IH]; intros (He & Hp & Huniq).
    { by apply elem_of_nil in He. }
    simpl. destruct (p a) eqn:Hpa.
    + assert (a = e) as -> by (apply Huniq; [by left|done]).
      f_equal. apply filter_nil_iff. intros x Hx.
      destruct (p x) eqn:Hpx; [|done].
      assert (x = e) as -> by (apply Huniq; [by right|done]). done.
    + apply IH. apply elem_of_cons in He as [->|He]; [congruence|].
      split; [done|]. split; [done|].
      intros x Hx. apply Huniq. by right.
Qed.

Lemma NoDup_bool_filter {A : Type} (p : A -> bool) (l : list A) :
  NoDup l -> NoDup (List.filter p l).
Proof.
  induction 1 as [|a l Ha Hnd IH]; simpl; [constructor|].
  destruct (p a); [|done]. constructor; [|done].
  intros Hin. apply list_elem_of_In, filter_In in Hin as [Hin _].
  by apply Ha, list_elem_of_In.
Qed.

Lemma filter_not_one_iff {A : Type} (p : A -> bool) (l : list A) :
  NoDup l ->
  (forall e, List.filter p l ≠ [e])
  <-> (forall x, x ∈ l -> p x = false)
      \/ exists x y, x ≠ y /\ x ∈ l /\ y ∈ l /\ p x = true /\ p y = true.
Proof.
  intros Hnodup. split.
  - intros Hnot.
    pose proof (NoDup_bool_filter p l Hnodup) as Hnd.
    destruct (List.filter p l) as [|x [|y k]] eqn:Hf.
    + left. by apply filter_nil_iff.
    + by destruct (Hnot x).
    + right. exists x, y.
      assert (In x (List.filter p l) /\ In y (List.filter p l)) as [Hx Hy]
        by (rewrite Hf; simpl; auto).
      apply filter_In in Hx as [Hx Hpx]. apply filter_In in Hy as [Hy Hpy].
      apply list_elem_of_In in Hx, Hy.
      split; [|done]. intros ->. apply NoDup_cons in Hnd as [Hnd _].
      apply Hnd. by left.
  - intros [Hnone|(x & y & Hxy & Hx & Hy & Hpx & Hpy)] e He.
    + apply filter_nil_iff in Hnone. congruence.
    + apply (filter_one_iff p l e Hnodup) in He as (_ & _ & Huniq).
      apply Hxy. by rewrite (Huniq x), (Huniq y).
Qed.

Lemma lookup_Some (table : list Entity) (ns n : string) (e : Entity) :
  lookup table ns n = Some e
  <-> List.filter (matches table ns n) table = [e].
Proof.
  unfold lookup.
  destruct (List.filter (matches table ns n) table) as [|x [|y l]];
    split; congruence.
Qed.

Lemma lookup_None (table : list Entity) (ns n : string) :
  lookup table ns n = None
  <-> forall e, List.filter (matches table ns n) table ≠ [e].
Proof.
  unfold lookup.
  destruct (List.filter (matches table ns n) table) as [|x [|y l]];
    split; try done.
  intros H. by destruct (H x).
Qed.

Lemma unique_names_NoDup (table : list Entity) :
  unique_names table -> NoDup table.
Proof. apply NoDup_fmap_1. Qed.

Lemma unique_names_inj (table : list Entity) (e e' : Entity) :
  unique_names table -> e ∈ table -> e' ∈ table ->
  qualified_name e = qualified_name e' -> e = e'.
Proof.
  unfold unique_names.
  induction table as [|a table IH]; intros Hnd He He' Hq.
  { by apply elem_of_nil in He. }
  rewrite fmap_cons in Hnd. apply NoDup_cons in Hnd as [Ha Hnd].
  apply elem_of_cons in He as [->|He], He' as [->|He'].
  - done.
  - destruct Ha. rewrite Hq. by apply list_elem_of_fmap_2.
  - destruct Ha. rewrite <- Hq. by apply list_elem_of_fmap_2.
  - by apply IH.
Qed.

(** A qualified look-up finds the entity of that name, if there is one. *)
Lemma lookup_qualified_Some (table : list Entity) (ns n : string)
    (e : Entity) :
  unique_names table -> ns ≠ "" ->
  lookup table ns n = Some e
  <-> e ∈ table /\ qualified_name e = ns +:+ "." +:+ n.
Proof.
  intros Huniq Hns.
  rewrite lookup_Some, filter_one_iff by by apply unique_names_NoDup.
  rewrite matches_qualified by done. split.
  - by intros (He & Hq & _).
  - intros [He Hq]. split; [done|]. split; [done|].
    intros x Hx Hm%matches_qualified; [|done].
    apply (unique_names_inj table); [done..|congruence].
Qed.

Lemma lookup_qualified_None (table : list Entity) (ns n : string) :
  unique_names table -> ns ≠ "" ->
  lookup table ns n = None
  <-> forall e, e ∈ table -> qualified_name e ≠ ns +:+ "." +:+ n.
Proof.
  intros Huniq Hns. split.
  - intros Hnone e He Hq.
    assert (lookup table ns n = Some e) as Hsome
      by by apply lookup_qualified_Some.
    congruence.
  - intros Hno. destruct (lookup table ns n) as [e|] eqn:Hl; [|done].
    apply lookup_qualified_Some in Hl as [He Hq]; [|done..].
    by destruct (Hno e He).
Qed.

(** An unqualified look-up finds the top-level entity of that name when
    there is one and only one. *)
Lemma lookup_top_level_Some (table : list Entity) (n : string)
    (e : Entity) :
  unique_names table ->
  lookup table "" n = Some e
  <-> top_level_named table n e
      /\ forall e', top_level_named table n e' -> e' = e.
Proof.
  intros Huniq.
  rewrite lookup_Some, filter_one_iff by by apply unique_names_NoDup.
  split.
  - intros (He & Hm & Hone). split; [by apply matches_top_level|].
    intros e' Hnamed. apply Hone; [apply Hnamed|].
    apply matches_top_level; [apply Hnamed|done].
  - intros [Hnamed Hone]. split; [apply Hnamed|]. split.
    + apply matches_top_level; [apply Hnamed|done].
    + intros x Hx Hm. apply Hone. by apply matches_top_level.
Qed.

Lemma lookup_top_level_None (table : list Entity) (n : string) :
  unique_names table ->
  lookup table "" n = None
  <-> (forall e, ~ top_level_named table n e)
      \/ exists e1 e2,
           e1 ≠ e2 /\ top_level_named table n e1
           /\ top_level_named table n e2.
Proof.
  intros Huniq.
  rewrite lookup_None, filter_not_one_iff by by apply unique_names_NoDup.
  split.
  - intros [Hnone|(x & y & Hxy & Hx & Hy & Hpx & Hpy)].
    + left. intros e Hnamed.
      pose proof (proj2 (matches_top_level table n e (proj1 Hnamed)) Hnamed)
        as Hm.
      rewrite (Hnone e (proj1 Hnamed)) in Hm. done.
    + right. exists x, y. split; [done|].
      split; by apply matches_top_level.
  - intros [Hnone|(x & y & Hxy & Hx & Hy)].
    + left. intros e He.
      destruct (matches table "" n e) eqn:Hm; [|done].
      apply matches_top_level in Hm; [|done]. by destruct (Hnone e).
    + right. exists x, y. split; [done|].
      split; [apply Hx|]. split; [apply Hy|].
      split; apply matches_top_level; (done || apply Hx || apply Hy).
Qed.

Example lookup_qualified :
  lookup Sample.table "m2" "bar"
    = Some (mkEntity "m2.bar" Function_ "m2.py" 1).
Proof. reflexivity. Qed.

Example lookup_top_level :
  lookup Sample.table "" "foo"
    = Some (mkEntity "m1.foo" Function_ "m1.py" 3).
Proof. reflexivity. Qed.

Example lookup_module_is_not_top_level : lookup Sample.table "" "m1" = None.
Proof. reflexivity. Qed.

Example lookup_no_match : lookup Sample.table "" "zork" = None.
Proof. reflexivity. Qed.

Example lookup_two_matches :
  lookup
    (Sample.table ++ [mkEntity "m2.foo" Function_ "m2.py" 7]) "" "foo"
    = None.
Proof. reflexivity. Qed.

Section Lookup.

Context {Visitor Graph : Type}.
Variable can_append : string -> bool.
Variable glob : string -> list string.
Variable CallGraphVisitor : list string -> Logger -> Visitor.

(** The symbol table of a visitor; [get_node] is the query over it. *)
Variable symbols : Visitor -> list Entity.
Variable visitor_filter :
  Visitor -> option Entity -> option string -> Visitor.
Variable from_visitor : Visitor -> gmap string bool -> Logger -> Graph.

Local Abbreviation exec :=
  (execute can_append glob CallGraphVisitor (fun v => lookup (symbols v))
     visitor_filter from_visitor).

(** C3: over a symbol table in which qualified names are unique,
    [lookup(ns, n)] with a non-empty [ns] returns the entity whose
    qualified name is [ns + "." + n] and fails exactly when the table has
    none; with the empty [ns] it returns the top-level entity named [n]
    (the entity [module + "." + n] of a module of the table) when there is
    exactly one, and fails exactly when there is none or more than one.
    [main] resolves the [--function] focus with it before it filters: the
    entity found is the node the filter receives, and a failed look-up
    ends the run before any filter call. *)
Theorem C3_lookup_resolves_the_focus :
  (forall (table : list Entity) (ns n : string),
     unique_names table ->
     (ns ≠ "" ->
      (forall e, lookup table ns n = Some e
                 <-> e ∈ table /\ qualified_name e = ns +:+ "." +:+ n)
      /\ (lookup table ns n = None
          <-> forall e, e ∈ table -> qualified_name e ≠ ns +:+ "." +:+ n))
     /\ (forall e, lookup table "" n = Some e
                   <-> top_level_named table n e
                       /\ forall e', top_level_named table n e' -> e' = e)
     /\ (lookup table "" n = None
         <-> (forall e, ~ top_level_named table n e)
             \/ exists e1 e2,
                  e1 ≠ e2 /\ top_level_named table n e1
                  /\ top_level_named table n e2))
  /\ (forall (flags : list flag) (args : list string) (FUNCTION : string),
        function (parse_args flags) = Some FUNCTION -> FUNCTION ≠ "" ->
        args ≠ [] -> flat_map glob args ≠ [] ->
        log_opens can_append (parse_args flags) = true ->
        let options := imply_grouped (parse_args flags) in
        let logger := setup_logger options in
        let filenames := flat_map glob args in
        let v := CallGraphVisitor filenames logger in
        let ns := namespace_of FUNCTION in
        let name := function_name_of FUNCTION in
        exec flags args =
          match lookup (symbols v) ns name with
          | Some e =>
              let v' := visitor_filter v (Some e) (namespace options) in
              let go := graph_options_of options in
              (inr tt,
               [new_CallGraphVisitor filenames logger;
                call_get_node v ns name;
                call_filter v (Some e) (namespace options);
                call_from_visitor v' go logger]
               ++ writer_calls options (from_visitor v' go logger) logger)
          | None =>
              (inl (NotFound ns name),
               [new_CallGraphVisitor filenames logger;
                call_get_node v ns name])
          end).
Proof.
  split.
  - intros table ns n Huniq. split; [|split].
    + intros Hns. split.
      * intros e. by apply lookup_qualified_Some.
      * by apply lookup_qualified_None.
    + intros e. by apply lookup_top_level_Some.
    + by apply lookup_top_level_None.
  - intros flags args FUNCTION Hf Hne Hargs Hfiles Hlog.
    exact (execute_focus can_append glob CallGraphVisitor
             (fun v => lookup (symbols v)) visitor_filter from_visitor
             flags args FUNCTION Hf Hne Hargs Hfiles Hlog).
Qed.

End Lookup.

(** ** The claims on the sample environment *)

Lemma C1_witness :
  let options := imply_grouped (parse_args [opt_dot; opt_tgf]) in
  let logger := setup_logger options in
  let v := Sample.CallGraphVisitor ["m1.py"; "m2.py"] logger in
  let graph := Sample.from_visitor v (graph_options_of options) logger in
  Sample.execute [opt_dot; opt_tgf] ["*.py"] =
    (inr tt,
     new_CallGraphVisitor ["m1.py"; "m2.py"] logger
       :: call_from_visitor v (graph_options_of options) logger
       :: writer_calls options graph logger)
  /\ List.filter is_filter (Sample.execute [opt_dot; opt_tgf] ["*.py"]).2
     = [].
Proof.
  apply (C1_no_focus_no_namespace_is_identity Sample.can_append Sample.glob
           Sample.CallGraphVisitor lookup Sample.visitor_filter
           Sample.from_visitor [opt_dot; opt_tgf] ["*.py"]).
  - intros s. rewrite !elem_of_cons, elem_of_nil. intuition discriminate.
  - intros s. rewrite !elem_of_cons, elem_of_nil. intuition discriminate.
  - discriminate.
  - vm_compute. discriminate.
  - reflexivity.
Defined.

Lemma C2_witness :
  Sample.execute [opt_dot] ["nothing.py"] =
    (inl (SystemExit 2 "No files found matching given glob: nothing.py"), [])
  /\ abort_message ["nothing.py"] ≠ ""
  /\ List.filter is_new_visitor (Sample.execute [opt_dot] ["nothing.py"]).2
     = [].
Proof.
  apply (C2_no_input_files_aborts Sample.can_append Sample.glob
           Sample.CallGraphVisitor lookup
           Sample.visitor_filter Sample.from_visitor [opt_dot]
           ["nothing.py"]).
  right. vm_compute. reflexivity.
Defined.

Lemma sample_table_unique : unique_names Sample.table.
Proof.
  unfold unique_names. simpl.
  repeat (apply NoDup_cons_2;
          [rewrite ?elem_of_cons, elem_of_nil; intuition discriminate|]).
  apply NoDup_nil_2.
Qed.

Lemma C3_witness :
  (lookup Sample.table "m1" "foo"
     = Some (mkEntity "m1.foo" Function_ "m1.py" 3)
   <-> mkEntity "m1.foo" Function_ "m1.py" 3 ∈ Sample.table
       /\ "m1.foo" = "m1" +:+ "." +:+ "foo")
  /\ (Sample.execute [opt_function "m1.foo"; opt_yed] ["*.py"]).1 = inr tt
  /\ List.filter is_selection
       (Sample.execute [opt_function "m1.foo"; opt_yed] ["*.py"]).2
     = [call_get_node Sample.table "m1" "foo";
        call_filter Sample.table
          (Some (mkEntity "m1.foo" Function_ "m1.py" 3)) None].
Proof.
  pose proof (C3_lookup_resolves_the_focus Sample.can_append Sample.glob
                Sample.CallGraphVisitor (fun v => v) Sample.visitor_filter
                Sample.from_visitor) as [Hlookup Hmain].
  split.
  - refine (proj1 (proj1 (Hlookup Sample.table "m1" "foo" _) _)
              (mkEntity "m1.foo" Function_ "m1.py" 3)).
    + exact sample_table_unique.
    + discriminate.
  - eassert (Sample.execute [opt_function "m1.foo"; opt_yed] ["*.py"] = _)
      as Hrun.
    { refine (Hmain [opt_function "m1.foo"; opt_yed] ["*.py"] "m1.foo"
                _ _ _ _ _).
      - reflexivity.
      - discriminate.
      - discriminate.
      - vm_compute. discriminate.
      - reflexivity. }
    rewrite Hrun. split; reflexivity.
Defined.

Lemma C4_witness :
  graph_options_of defaults = default_graph_options
  /\ graph_options_of (imply_grouped (parse_args [opt_dot; opt_verbose]))
     = default_graph_options
  /\ dom (graph_options_of (imply_grouped (parse_args [opt_dot; opt_verbose])))
     = ({[ "draw_defines"; "draw_uses"; "colored"; "grouped_alt"; "grouped";
           "nested_groups"; "annotated" ]} : gset string).
Proof.
  eapply (C4_presentation_option_defaults Sample.can_append Sample.glob
            Sample.CallGraphVisitor
            lookup Sample.visitor_filter Sample.from_visitor
            [opt_dot; opt_verbose] ["m1.py"]).
  - repeat constructor.
  - apply execute_plain_builds.
    + reflexivity.
    + reflexivity.
    + discriminate.
    + vm_compute. discriminate.
    + reflexivity.
Defined.

Lemma C5_witness :
  graph_options_of (imply_grouped (parse_args [opt_nested_groups]))
    !! "nested_groups" = Some true
  /\ graph_options_of (imply_grouped (parse_args [opt_nested_groups]))
       !! "grouped" = Some true.
Proof.
  eapply (C5_nested_groups_implies_grouped Sample.can_append Sample.glob
            Sample.CallGraphVisitor lookup Sample.visitor_filter
            Sample.from_visitor [opt_nested_groups] ["m1.py"]).
  - apply elem_of_cons. by left.
  - apply execute_plain_builds.
    + reflexivity.
    + reflexivity.
    + discriminate.
    + vm_compute. discriminate.
    + reflexivity.
Defined.

Lemma C6_witness :
  "a.b.f" = "a.b" +:+ "." +:+ "f"
  /\ Py.contains dot_char (function_name_of "a.b.f") = false
  /\ Py.split dot_char "a.b.f"
     = Py.split dot_char (namespace_of "a.b.f") ++ [function_name_of "a.b.f"]
  /\ (forall ns' leaf',
        "a.b.f" = ns' +:+ "." +:+ leaf' ->
        Py.contains dot_char leaf' = false ->
        ns' = namespace_of "a.b.f" /\ leaf' = function_name_of "a.b.f")
  /\ List.filter is_get_node
       (Sample.execute [opt_function "a.b.f"] ["*.py"]).2
     = [call_get_node
          (Sample.CallGraphVisitor (flat_map Sample.glob ["*.py"])
             (setup_logger (imply_grouped (parse_args [opt_function "a.b.f"]))))
          (namespace_of "a.b.f") (function_name_of "a.b.f")].
Proof.
  apply (C6_dotted_focus_split_at_last_dot Sample.can_append Sample.glob
           Sample.CallGraphVisitor lookup Sample.visitor_filter
           Sample.from_visitor [opt_function "a.b.f"] ["*.py"] "a.b.f").
  - reflexivity.
  - reflexivity.
  - discriminate.
  - vm_compute. discriminate.
  - reflexivity.
Defined.

Lemma C8_witness :
  let flags := [opt_yed; opt_dot] in
  let options := imply_grouped (parse_args flags) in
  let logger := setup_logger options in
  let v := Sample.CallGraphVisitor (flat_map Sample.glob ["m1.py"]) logger in
  let graph := Sample.from_visitor v (graph_options_of options) logger in
  List.filter is_run (Sample.execute flags ["m1.py"]).2 =
    [call_run (writer_of options graph logger DotWriter);
     call_run (writer_of options graph logger YedWriter)].
Proof.
  intros flags options logger v graph.
  refine (proj1 (proj2
    (C8_writers_cumulative_in_fixed_order Sample.can_append Sample.glob
       Sample.CallGraphVisitor lookup Sample.visitor_filter
       Sample.from_visitor flags ["m1.py"] v (graph_options_of options)
       logger _))).
  apply execute_plain_builds.
  - reflexivity.
  - reflexivity.
  - discriminate.
  - vm_compute. discriminate.
  - reflexivity.
Defined.

Lemma C9_witness :
  namespace_of "m1" = "" /\ function_name_of "m1" = "m1"
  /\ List.filter is_get_node (Sample.execute [opt_function "m1"] ["*.py"]).2
     = [call_get_node Sample.table "" "m1"].
Proof.
  apply (C9_plain_focus_has_empty_namespace Sample.can_append Sample.glob
           Sample.CallGraphVisitor lookup Sample.visitor_filter
           Sample.from_visitor [opt_function "m1"] ["*.py"] "m1").
  - reflexivity.
  - reflexivity.
  - discriminate.
  - vm_compute. discriminate.
  - reflexivity.
Defined.

(** C9 as stated fails on the empty value: it has no dot and it is the
    value of [--function], yet the run looks nothing up. *)
Lemma C9_counterexample_empty_value :
  Py.contains dot_char "" = false
  /\ function (parse_args [opt_function ""]) = Some ""
  /\ List.filter is_get_node (Sample.execute [opt_function ""] ["*.py"]).2
     = []
  /\ (forall v, call_get_node v "" ""
                ∉ (Sample.execute [opt_function ""] ["*.py"]).2).
Proof.
  split; [reflexivity|]. split; [reflexivity|]. split.
  - vm_compute. reflexivity.
  - intros v Hin. apply list_elem_of_In in Hin.
    assert (In (call_get_node v "" "")
              (List.filter is_get_node
                 (Sample.execute [opt_function ""] ["*.py"]).2)) as Hin'
      by (apply filter_In; by split).
    vm_compute in Hin'. exact Hin'.
Qed.

Lemma C10_witness :
  let flags := [opt_verbose; opt_log "pyan.log"; opt_very_verbose] in
  let logger := setup_logger (imply_grouped (parse_args flags)) in
  (Sample.execute flags ["m2.py"]).2 !! 0
    = Some (new_CallGraphVisitor (flat_map Sample.glob ["m2.py"]) logger)
  /\ log_handlers logger = [StreamHandler; FileHandler "pyan.log"]
  /\ Sample.execute [opt_log "."] ["m2.py"] = (inl (OSError "."), [])
  /\ log_level logger = DEBUG.
Proof.
  intros flags logger.
  destruct (C10_logger_level_and_handlers Sample.can_append Sample.glob
              Sample.CallGraphVisitor lookup Sample.visitor_filter
              Sample.from_visitor flags ["m2.py"])
    as (Hopens & _ & Hlevel).
  destruct (Hopens eq_refl) as (_ & Hfirst & Hhandlers).
  destruct (C10_logger_level_and_handlers Sample.can_append Sample.glob
              Sample.CallGraphVisitor lookup Sample.visitor_filter
              Sample.from_visitor [opt_log "."] ["m2.py"])
    as (_ & Hfails & _).
  split; [|split; [|split]].
  - apply Hfirst; [discriminate | vm_compute; discriminate].
  - exact Hhandlers.
  - apply (Hfails ".");
      [reflexivity | discriminate | reflexivity | discriminate
      | vm_compute; discriminate].
  - exact Hlevel.
Defined.

(** C10 as stated fails on the empty name, and on a name that cannot be
    opened: [--log] is given, yet with the one the logger of the run has
    the stream handler alone, and with the other the run ends in the
    exception of [logging.FileHandler] with no handler added to any
    analysis. *)
Lemma C10_counterexample_empty_log :
  logname (parse_args [opt_log ""]) = Some ""
  /\ log_handlers (setup_logger (imply_grouped (parse_args [opt_log ""])))
     = [StreamHandler]
  /\ (Sample.execute [opt_log ""] ["*.py"]).2 !! 0
     = Some (new_CallGraphVisitor ["m1.py"; "m2.py"]
               (mkLogger WARN [StreamHandler]))
  /\ logname (parse_args [opt_log "."]) = Some "."
  /\ Sample.execute [opt_log "."] ["*.py"] = (inl (OSError "."), []).
Proof.
  split; [reflexivity|]. split; [reflexivity|].
  split; [vm_compute; reflexivity|]. split; reflexivity.
Qed.

(** * Further properties of [main] *)

(** ** The option table, attribute by attribute *)

(** For an attribute that several options write, or one option with an
    argument, the occurrence nearest the end of the command line decides. *)
Ltac by_last_occurrence flags :=
  induction flags as [|f flags IH] using rev_ind;
  [ reflexivity
  | rewrite parse_args_snoc, omap_app;
    destruct f; simpl;
    rewrite ?app_nil_r, ?last_snoc; solve [exact IH | reflexivity] ].

Lemma draw_defines_last (flags : list flag) :
  draw_defines (parse_args flags)
    = default true (last (omap defines_switch flags)).
Proof. by_last_occurrence flags. Qed.

Lemma draw_uses_last (flags : list flag) :
  draw_uses (parse_args flags) = default true (last (omap uses_switch flags)).
Proof. by_last_occurrence flags. Qed.

Lemma filename_last (flags : list flag) :
  filename (parse_args flags) = last (omap file_argument flags).
Proof. by_last_occurrence flags. Qed.

Lemma rankdir_last (flags : list flag) :
  rankdir (parse_args flags)
    = default "TB" (last (omap rankdir_argument flags)).
Proof. by_last_occurrence flags. Qed.

Lemma namespace_last (flags : list flag) :
  namespace (parse_args flags) = last (omap namespace_argument flags).
Proof. by_last_occurrence flags. Qed.

Lemma function_last_argument (flags : list flag) :
  function (parse_args flags) = last (omap function_argument flags).
Proof. by_last_occurrence flags. Qed.

Lemma colored_set (flags : list flag) :
  colored (parse_args flags) = true <-> opt_colored ∈ flags.
Proof. by_last_option flags. by rewrite elem_of_nil. Qed.

Lemma grouped_alt_set (flags : list flag) :
  grouped_alt (parse_args flags) = true <-> opt_grouped_alt ∈ flags.
Proof. by_last_option flags. by rewrite elem_of_nil. Qed.

Lemma grouped_set (flags : list flag) :
  grouped (parse_args flags) = true <-> opt_grouped ∈ flags.
Proof. by_last_option flags. by rewrite elem_of_nil. Qed.

Lemma annotated_set (flags : list flag) :
  annotated (parse_args flags) = true <-> opt_annotated ∈ flags.
Proof. by_last_option flags. by rewrite elem_of_nil. Qed.

Lemma eq_bool_decide (b : bool) (P : Prop) `{Decision P} :
  (b = true <-> P) -> b = bool_decide P.
Proof.
  intros HP. apply eq_true_iff_eq. by rewrite bool_decide_eq_true.
Qed.

(** The options that are not presentation options leave the seven
    presentation attributes alone. *)
Lemma presentation_fields_filter (flags : list flag) :
  let o := parse_args flags in
  let o' := parse_args (List.filter presentation_flag flags) in
  draw_defines o = draw_defines o' /\ draw_uses o = draw_uses o' /\
  colored o = colored o' /\ grouped_alt o = grouped_alt o' /\
  grouped o = grouped o' /\ nested_groups o = nested_groups o' /\
  annotated o = annotated o'.
Proof.
  induction flags as [|f flags IH] using rev_ind; [done|].
  cbn zeta in *. rewrite List.filter_app, parse_args_snoc.
  destruct IH as (H1 & H2 & H3 & H4 & H5 & H6 & H7).
  destruct f; simpl; rewrite ?app_nil_r, ?parse_args_snoc; simpl; done.
Qed.

(** ** Every run, path by path *)

Section Paths.

Context {Node Visitor Graph : Type}.
Variable can_append : string -> bool.
Variable glob : string -> list string.
Variable CallGraphVisitor : list string -> Logger -> Visitor.
Variable visitor_get_node : Visitor -> string -> string -> option Node.
Variable visitor_filter : Visitor -> option Node -> option string -> Visitor.
Variable from_visitor : Visitor -> gmap string bool -> Logger -> Graph.

Local Abbreviation call := (call Node Visitor Graph).
Local Abbreviation exec :=
  (execute can_append glob CallGraphVisitor visitor_get_node visitor_filter
     from_visitor).
Local Abbreviation path :=
  (path can_append glob CallGraphVisitor visitor_get_node visitor_filter
     from_visitor).

(** The run with a namespace and no focus: the filter is the only call of
    the selection, and the builder gets what it returns. *)
Lemma execute_namespace_only (flags : list flag) (args : list string) :
  Py.truthy (function (parse_args flags)) = false ->
  Py.truthy (namespace (parse_args flags)) = true ->
  args ≠ [] -> flat_map glob args ≠ [] ->
  log_opens can_append (parse_args flags) = true ->
  let options := imply_grouped (parse_args flags) in
  let logger := setup_logger options in
  let filenames := flat_map glob args in
  let v := CallGraphVisitor filenames logger in
  let v' := visitor_filter v None (namespace (parse_args flags)) in
  let go := graph_options_of options in
  exec flags args =
    (inr tt,
     [new_CallGraphVisitor filenames logger;
      call_filter v None (namespace (parse_args flags));
      call_from_visitor v' go logger]
     ++ writer_calls options (from_visitor v' go logger) logger).
Proof.
  intros Hf Hn Hargs Hfiles Hlog options logger filenames v v' go.
  pose proof (imply_grouped_keeps (parse_args flags))
    as (_ & _ & _ & _ & _ & Hf' & Hn' & _).
  rewrite execute_accepted by done. cbn zeta.
  rewrite select_namespace; [|by rewrite Hf'|by rewrite Hn'].
  by rewrite Hn'.
Qed.

Lemma files_give_args (args : list string) :
  flat_map glob args ≠ [] -> args ≠ [].
Proof. by intros H ->. Qed.

(** Every run goes one of the six ways. *)
Lemma run_path (flags : list flag) (args : list string) : path flags args.
Proof.
  destruct (decide (flat_map glob args = [])) as [Hfiles|Hfiles].
  { apply path_refused; [done|]. apply execute_refused. by right. }
  pose proof (files_give_args _ Hfiles) as Hargs.
  destruct (log_opens can_append (parse_args flags)) eqn:Hlog; cycle 1.
  { destruct (log_fails can_append flags Hlog) as (LOG & HL & HLne & HLno).
    apply (path_log_fails _ _ _ _ _ _ _ _ LOG); try done.
    by apply execute_log_fails. }
  pose proof (imply_grouped_keeps (parse_args flags))
    as (_ & _ & _ & _ & _ & _ & Hn' & _).
  destruct (Py.truthy (function (parse_args flags))) eqn:Hft.
  - destruct (function (parse_args flags)) as [F|] eqn:Hf; [|done].
    apply truthy_Some in Hft.
    pose proof (execute_focus can_append glob CallGraphVisitor
                  visitor_get_node visitor_filter from_visitor flags args F
                  Hf Hft Hargs Hfiles Hlog) as Hrun.
    cbn zeta in Hrun.
    destruct (visitor_get_node _ (namespace_of F) (function_name_of F))
      as [node|] eqn:Hnode.
    + apply (path_focus _ _ _ _ _ _ _ _ F node); try done.
      by rewrite Hrun, Hn'.
    + by apply (path_not_found _ _ _ _ _ _ _ _ F).
  - destruct (Py.truthy (namespace (parse_args flags))) eqn:Hn.
    + apply path_namespace; try done. by apply execute_namespace_only.
    + apply path_plain; try done. by apply execute_plain.
Qed.

Ltac on_path flags args :=
  destruct (run_path flags args) as
    [Hfiles Hrun
    |LOG Hfiles HL HLne HLno Hrun
    |F options logger filenames v ns name Hfiles Hlog Hf HF Hnode Hrun
    |F node options logger filenames v ns name v' go Hfiles Hlog Hf HF Hnode
       Hrun
    |options logger filenames v v' go Hfiles Hlog Hf Hn Hrun
    |options logger filenames v go Hfiles Hlog Hf Hn Hrun].

Lemma writer_calls_no_from_visitor (options : Values) (graph : Graph)
    (logger : Logger) :
  List.filter is_from_visitor
    (writer_calls options graph logger : list call) = [].
Proof.
  unfold writer_calls.
  induction (List.filter (requested options) writer_classes); by simpl.
Qed.

Lemma writer_calls_elem (options : Values) (graph : Graph)
    (logger : Logger) (c : call) :
  c ∈ (writer_calls options graph logger : list call) ->
  exists cls,
    c = call_run (writer_of options graph logger cls)
    /\ requested options cls = true.
Proof.
  unfold writer_calls. intros (cls & -> & Hin)%list_elem_of_fmap.
  exists cls. split; [done|].
  apply list_elem_of_In, filter_In in Hin. apply Hin.
Qed.

(** The writers come in their fixed order, after the first four stages. *)
Lemma writer_calls_phases (options : Values) (graph : Graph)
    (logger : Logger) :
  StronglySorted lt
    (phase <$> (writer_calls options graph logger : list call))
  /\ Forall (fun n => 4 <= n)
       (phase <$> (writer_calls options graph logger : list call)).
Proof.
  unfold writer_calls, writer_classes.
  destruct options as [d tg sv ht ye ? ? ? ? ? ? ? ? ? ? ? ? ? ?].
  cbn [List.filter requested dot html svg tgf yed].
  destruct d, ht, sv, tg, ye; cbn; split; repeat constructor.
Qed.

Lemma sorted_before_writers (stages writers : list nat) :
  StronglySorted lt stages -> Forall (fun n => n < 4) stages ->
  StronglySorted lt writers -> Forall (fun n => 4 <= n) writers ->
  StronglySorted lt (stages ++ writers).
Proof.
  intros Hs Hlow Hw Hhigh. apply StronglySorted_app_2; [|done..].
  intros x1 x2 H1 H2.
  apply (proj1 (Forall_forall _ _) Hlow) in H1.
  apply (proj1 (Forall_forall _ _) Hhigh) in H2. lia.
Qed.

(** X10: in every run the calls follow the pipeline: analysis, look-up,
    filter, presentation, then the writers in the order dot, html, svg,
    tgf, yed, each stage at most once. *)
Theorem X10_calls_follow_the_pipeline (flags : list flag)
    (args : list string) :
  StronglySorted lt (phase <$> (exec flags args).2).
Proof.
  on_path flags args; rewrite Hrun; cbn [snd]; try rewrite fmap_app.
  - constructor.
  - constructor.
  - repeat constructor.
  - destruct (writer_calls_phases options (from_visitor v' go logger) logger).
    apply sorted_before_writers; [repeat constructor..|done|done].
  - destruct (writer_calls_phases options (from_visitor v' go logger) logger).
    apply sorted_before_writers; [repeat constructor..|done|done].
  - destruct (writer_calls_phases options (from_visitor v go logger) logger).
    apply sorted_before_writers; [repeat constructor..|done|done].
Qed.

Lemma imply_grouped_keeps_output (o : Values) :
  filename (imply_grouped o) = filename o
  /\ rankdir (imply_grouped o) = rankdir o.
Proof. unfold imply_grouped. by destruct (nested_groups o). Qed.

(** X1: on a command line that [parse_args] has accepted, the checks of
    lines 92-95 end the run in [parser.error] exactly when the patterns
    expand to no file at all: one pattern that matches is enough to pass
    them.  When they pass and the log file, if one is named, opens, the
    first call is the analysis of the whole expansion, in the order of
    the arguments. *)
Theorem X1_refused_exactly_when_nothing_matches (flags : list flag)
    (args : list string) :
  (exec flags args = (inl (SystemExit 2 (abort_message args)), [])
   <-> flat_map glob args = [])
  /\ ((exists status msg, (exec flags args).1 = inl (SystemExit status msg))
      <-> flat_map glob args = [])
  /\ (flat_map glob args ≠ [] ->
      log_opens can_append (parse_args flags) = true ->
      exists rest,
        (exec flags args).2 =
          new_CallGraphVisitor (flat_map glob args)
            (setup_logger (imply_grouped (parse_args flags))) :: rest).
Proof.
  split; [|split].
  - split.
    + intros Hexit. on_path flags args; rewrite Hrun in Hexit; done.
    + intros Hnone. apply execute_refused. by right.
  - split.
    + intros (status & msg & Hexit).
      on_path flags args; rewrite Hrun in Hexit; done.
    + intros Hnone. exists 2%Z, (abort_message args).
      rewrite execute_refused; [done|by right].
  - intros Hsome Hopens.
    on_path flags args; rewrite Hrun; [done| |eauto..].
    unfold log_opens in Hopens. rewrite HL in Hopens.
    apply truthy_Some in HLne. rewrite HLne in Hopens. congruence.
Qed.

(** X2: with a non-empty [--namespace] and no (or an empty) [--function],
    the last occurrence counting for both, nothing is looked up: the filter
    is called once, with no node and that namespace, and the presentation
    builder gets the visitor the filter returns.  (The run is one that
    reaches the selection: input files, and a log file, if one is named,
    that opens.) *)
Theorem X2_namespace_alone_filters_without_node (flags : list flag)
    (args : list string) (NAMESPACE : string) :
  Py.truthy (last (omap function_argument flags)) = false ->
  last (omap namespace_argument flags) = Some NAMESPACE ->
  NAMESPACE ≠ "" ->
  flat_map glob args ≠ [] ->
  log_opens can_append (parse_args flags) = true ->
  let options := imply_grouped (parse_args flags) in
  let logger := setup_logger options in
  let filenames := flat_map glob args in
  let v := CallGraphVisitor filenames logger in
  let v' := visitor_filter v None (Some NAMESPACE) in
  let go := graph_options_of options in
  exec flags args =
    (inr tt,
     [new_CallGraphVisitor filenames logger;
      call_filter v None (Some NAMESPACE);
      call_from_visitor v' go logger]
     ++ writer_calls options (from_visitor v' go logger) logger).
Proof.
  intros Hf Hn Hne Hfiles Hlog options logger filenames v v' go.
  rewrite <- function_last_argument in Hf.
  rewrite <- namespace_last in Hn.
  rewrite execute_namespace_only;
    [|done|rewrite Hn; by apply truthy_Some|by eapply files_give_args
     |done|done].
  cbn zeta. by rewrite Hn.
Qed.

(** X4: a run that does not complete (no input file, a log file that
    does not open, a focus that is not found) has filtered nothing, built
    no presentation graph and run no writer, whatever formats were
    asked. *)
Theorem X4_failed_run_writes_nothing (flags : list flag)
    (args : list string) :
  (exec flags args).1 ≠ inr tt ->
  List.filter is_filter (exec flags args).2 = []
  /\ List.filter is_from_visitor (exec flags args).2 = []
  /\ List.filter is_run (exec flags args).2 = [].
Proof.
  intros Hfail. on_path flags args; rewrite Hrun in *; done.
Qed.

(** X5: a completed run calls the filter once when a non-empty focus or
    namespace is given and never otherwise, and [get_node] once when a
    non-empty focus is given and never otherwise. *)
Theorem X5_selection_calls_counted (flags : list flag)
    (args : list string) :
  (exec flags args).1 = inr tt ->
  length (List.filter is_filter (exec flags args).2)
    = (if Py.truthy (function (parse_args flags))
          || Py.truthy (namespace (parse_args flags)) then 1 else 0)
  /\ length (List.filter is_get_node (exec flags args).2)
     = (if Py.truthy (function (parse_args flags)) then 1 else 0).
Proof.
  intros Hdone.
  on_path flags args; rewrite Hrun in *; try done; cbn [snd];
    rewrite !List.filter_app, writer_calls_no_filter,
      writer_calls_no_get_node.
  - apply truthy_Some in HF. by rewrite Hf, HF.
  - by rewrite Hf, Hn.
  - by rewrite Hf, Hn.
Qed.

(** X6: every writer that runs is given the same output (the argument of
    the last [--file], or [None]), the logger of the analysis and the
    graph of the one [from_visitor] call; [rankdir=] (the argument of the
    last [--dot-rankdir], or TB) goes to the dot, html and svg writers
    only; and its format flag is on the command line. *)
Theorem X6_writers_share_their_arguments (flags : list flag)
    (args : list string) (w : Writer Graph) :
  call_run w ∈ (exec flags args).2 ->
  w_output w = last (omap file_argument flags)
  /\ w_options w =
       match w_class w with
       | TgfWriter | YedWriter => None
       | _ =>
           Some ["rankdir="
                 +:+ default "TB" (last (omap rankdir_argument flags))]
       end
  /\ w_logger w = setup_logger (imply_grouped (parse_args flags))
  /\ format_flag (w_class w) ∈ flags
  /\ exists v go,
       call_from_visitor v go (w_logger w) ∈ (exec flags args).2
       /\ w_graph w = from_visitor v go (w_logger w).
Proof.
  intros Hin.
  pose proof (imply_grouped_keeps_output (parse_args flags)) as [Hfile Hdir].
  assert (forall graph cls,
            w = writer_of (imply_grouped (parse_args flags)) graph
                  (setup_logger (imply_grouped (parse_args flags))) cls ->
            requested (imply_grouped (parse_args flags)) cls = true ->
            w_output w = last (omap file_argument flags)
            /\ w_options w =
                 match w_class w with
                 | TgfWriter | YedWriter => None
                 | _ =>
                     Some ["rankdir="
                           +:+ default "TB"
                                 (last (omap rankdir_argument flags))]
                 end
            /\ w_logger w = setup_logger (imply_grouped (parse_args flags))
            /\ format_flag (w_class w) ∈ flags
            /\ w_graph w = graph) as Hwriter.
  { intros graph cls -> Hreq. rewrite requested_flag in Hreq.
    apply bool_decide_eq_true in Hreq.
    unfold writer_of; cbn [w_output w_options w_logger w_class w_graph].
    rewrite Hfile, Hdir, filename_last, rankdir_last.
    repeat split; try done; by destruct cls. }
  on_path flags args; rewrite Hrun in *; cbn [snd] in *.
  - by apply elem_of_nil in Hin.
  - by apply elem_of_nil in Hin.
  - repeat (apply elem_of_cons in Hin as [Hin|Hin]; [done|]).
    by apply elem_of_nil in Hin.
  - apply elem_of_app in Hin as [Hin|Hin].
    { repeat (apply elem_of_cons in Hin as [Hin|Hin]; [done|]).
      by apply elem_of_nil in Hin. }
    apply writer_calls_elem in Hin as (cls & [= ->] & Hreq).
    destruct (Hwriter _ cls eq_refl Hreq) as (H1 & H2 & H3 & H4 & H5).
    repeat split; try done. exists v', go. rewrite H3, H5. split; [|done].
    apply elem_of_app. left. repeat constructor.
  - apply elem_of_app in Hin as [Hin|Hin].
    { repeat (apply elem_of_cons in Hin as [Hin|Hin]; [done|]).
      by apply elem_of_nil in Hin. }
    apply writer_calls_elem in Hin as (cls & [= ->] & Hreq).
    destruct (Hwriter _ cls eq_refl Hreq) as (H1 & H2 & H3 & H4 & H5).
    repeat split; try done. exists v', go. rewrite H3, H5. split; [|done].
    apply elem_of_app. left. repeat constructor.
  - apply elem_of_app in Hin as [Hin|Hin].
    { repeat (apply elem_of_cons in Hin as [Hin|Hin]; [done|]).
      by apply elem_of_nil in Hin. }
    apply writer_calls_elem in Hin as (cls & [= ->] & Hreq).
    destruct (Hwriter _ cls eq_refl Hreq) as (H1 & H2 & H3 & H4 & H5).
    repeat split; try done. exists v, go. rewrite H3, H5. split; [|done].
    apply elem_of_app. left. repeat constructor.
Qed.

(** In a run with neither focus nor namespace, the writer of every
    requested format runs. *)
Lemma execute_plain_runs (flags : list flag) (args : list string)
    (cls : writer_class) :
  Py.truthy (function (parse_args flags)) = false ->
  Py.truthy (namespace (parse_args flags)) = false ->
  args ≠ [] -> flat_map glob args ≠ [] ->
  log_opens can_append (parse_args flags) = true ->
  requested (imply_grouped (parse_args flags)) cls = true ->
  let options := imply_grouped (parse_args flags) in
  let logger := setup_logger options in
  let v := CallGraphVisitor (flat_map glob args) logger in
  let graph := from_visitor v (graph_options_of options) logger in
  call_run (writer_of options graph logger cls) ∈ (exec flags args).2.
Proof.
  intros Hf Hn Hargs Hfiles Hlog Hreq options logger v graph.
  rewrite execute_plain by done. cbn [snd].
  do 2 (apply elem_of_cons; right). unfold writer_calls.
  apply (list_elem_of_fmap_2
           (fun c => call_run (writer_of options graph logger c))).
  apply list_elem_of_In, filter_In. split; [|done].
  destruct cls; simpl; tauto.
Qed.

End Paths.

(** ** The dictionary of presentation options, entry by entry *)

Lemma imply_grouped_keeps_presentation (o : Values) :
  draw_defines (imply_grouped o) = draw_defines o
  /\ draw_uses (imply_grouped o) = draw_uses o
  /\ colored (imply_grouped o) = colored o
  /\ grouped_alt (imply_grouped o) = grouped_alt o
  /\ annotated (imply_grouped o) = annotated o.
Proof. unfold imply_grouped. by destruct (nested_groups o). Qed.

(** X7: whether [defines] and [uses] edges are drawn is decided by the
    last of [--defines]/[--no-defines], respectively [--uses]/[--no-uses],
    on the command line; without any of them the edges are drawn. *)
Theorem X7_last_switch_decides_edge_kinds (flags : list flag) :
  graph_options_of (imply_grouped (parse_args flags)) !! "draw_defines"
    = Some (default true (last (omap defines_switch flags)))
  /\ graph_options_of (imply_grouped (parse_args flags)) !! "draw_uses"
     = Some (default true (last (omap uses_switch flags))).
Proof.
  pose proof (graph_options_lookup (imply_grouped (parse_args flags)))
    as (Hd & Hu & _).
  pose proof (imply_grouped_keeps_presentation (parse_args flags))
    as (Hd' & Hu' & _).
  rewrite Hd, Hu, Hd', Hu', draw_defines_last, draw_uses_last. done.
Qed.

(** X8: the dictionary handed to the presentation builder depends on the
    nine presentation options alone: removing every other option from the
    command line leaves it unchanged. *)
Theorem X8_dictionary_ignores_other_options (flags : list flag) :
  graph_options_of (imply_grouped (parse_args flags))
  = graph_options_of
      (imply_grouped (parse_args (List.filter presentation_flag flags))).
Proof.
  destruct (presentation_fields_filter flags)
    as (H1 & H2 & H3 & H4 & H5 & H6 & H7).
  unfold imply_grouped. rewrite <- H6.
  destruct (nested_groups (parse_args flags)) eqn:Hng;
    unfold graph_options_of; simpl;
    by rewrite <- H1, <- H2, <- H3, <- H4, <- H7, <- H6, ?Hng, <- ?H5.
Qed.

(** X9: the five on/off entries of the dictionary: [colored],
    [grouped_alt] and [annotated] are on exactly when their option is
    given, [nested_groups] exactly with [--nested-groups], and [grouped]
    exactly with [--grouped] or [--nested-groups] (so [--grouped] alone
    does not nest). *)
Theorem X9_dictionary_switches (flags : list flag) :
  let go := graph_options_of (imply_grouped (parse_args flags)) in
  go !! "colored" = Some (bool_decide (opt_colored ∈ flags))
  /\ go !! "grouped_alt" = Some (bool_decide (opt_grouped_alt ∈ flags))
  /\ go !! "annotated" = Some (bool_decide (opt_annotated ∈ flags))
  /\ go !! "nested_groups"
     = Some (bool_decide (opt_nested_groups ∈ flags))
  /\ go !! "grouped"
     = Some (bool_decide (opt_grouped ∈ flags)
             || bool_decide (opt_nested_groups ∈ flags)).
Proof.
  intros go.
  pose proof (graph_options_lookup (imply_grouped (parse_args flags)))
    as (_ & _ & Hc & Hga & Hg & Hng & Ha).
  pose proof (imply_grouped_keeps_presentation (parse_args flags))
    as (_ & _ & Hc' & Hga' & Ha').
  pose proof (imply_grouped_keeps (parse_args flags)) as Hkeep.
  assert (nested_groups (imply_grouped (parse_args flags))
          = nested_groups (parse_args flags)) as Hng' by apply Hkeep.
  unfold go. rewrite Hc, Hga, Hg, Hng, Ha, Hc', Hga', Ha', Hng'.
  rewrite imply_grouped_grouped.
  rewrite (eq_bool_decide _ _ (colored_set flags)).
  rewrite (eq_bool_decide _ _ (grouped_alt_set flags)).
  rewrite (eq_bool_decide _ _ (annotated_set flags)).
  rewrite (eq_bool_decide _ _ (nested_groups_set flags)).
  rewrite (eq_bool_decide _ _ (grouped_set flags)).
  done.
Qed.

(** X11: of the positional arguments a run uses the expansion only: two
    command lines with the same options whose patterns expand to the same
    non-empty list of files make the same calls with the same outcome; in
    particular a pattern that matches nothing, among patterns that match,
    is ignored. *)
Theorem X11_run_depends_on_expansion_only {Node Visitor Graph : Type}
    (can_append : string -> bool) (glob : string -> list string)
    (CallGraphVisitor : list string -> Logger -> Visitor)
    (visitor_get_node : Visitor -> string -> string -> option Node)
    (visitor_filter : Visitor -> option Node -> option string -> Visitor)
    (from_visitor : Visitor -> gmap string bool -> Logger -> Graph)
    (flags : list flag) (args1 args2 : list string) :
  flat_map glob args1 = flat_map glob args2 ->
  flat_map glob args1 ≠ [] ->
  execute can_append glob CallGraphVisitor visitor_get_node visitor_filter
    from_visitor flags args1
  = execute can_append glob CallGraphVisitor visitor_get_node visitor_filter
      from_visitor flags args2
  /\ (forall before unmatched after,
        args1 = before ++ unmatched :: after -> glob unmatched = [] ->
        execute can_append glob CallGraphVisitor visitor_get_node visitor_filter
          from_visitor flags args1
        = execute can_append glob CallGraphVisitor visitor_get_node visitor_filter
            from_visitor flags (before ++ after)).
Proof.
  intros Hsame Hfiles. split.
  - by apply execute_depends_on_filenames.
  - intros before unmatched after -> Hnone.
    apply execute_depends_on_filenames; [|done].
    rewrite !flat_map_app. simpl. by rewrite Hnone.
Qed.

(** ** The further properties on the sample environment *)

Lemma X2_witness :
  let flags := [opt_namespace "m1"; opt_function ""; opt_tgf] in
  let options := imply_grouped (parse_args flags) in
  let logger := setup_logger options in
  let filenames := flat_map Sample.glob ["*.py"] in
  let v := Sample.CallGraphVisitor filenames logger in
  let v' := Sample.visitor_filter v None (Some "m1") in
  let go := graph_options_of options in
  Sample.execute flags ["*.py"] =
    (inr tt,
     [new_CallGraphVisitor filenames logger;
      call_filter v None (Some "m1");
      call_from_visitor v' go logger]
     ++ writer_calls options (Sample.from_visitor v' go logger) logger).
Proof.
  intros flags.
  apply (X2_namespace_alone_filters_without_node Sample.can_append Sample.glob
           Sample.CallGraphVisitor lookup Sample.visitor_filter
           Sample.from_visitor flags ["*.py"] "m1").
  - reflexivity.
  - reflexivity.
  - discriminate.
  - vm_compute. discriminate.
  - reflexivity.
Defined.

Lemma X4_witness :
  List.filter is_filter
    (Sample.execute [opt_function "zork"; opt_dot] ["*.py"]).2 = []
  /\ List.filter is_from_visitor
       (Sample.execute [opt_function "zork"; opt_dot] ["*.py"]).2 = []
  /\ List.filter is_run
       (Sample.execute [opt_function "zork"; opt_dot] ["*.py"]).2 = [].
Proof.
  apply (X4_failed_run_writes_nothing Sample.can_append Sample.glob
           Sample.CallGraphVisitor
           lookup Sample.visitor_filter Sample.from_visitor
           [opt_function "zork"; opt_dot] ["*.py"]).
  vm_compute. discriminate.
Defined.

Lemma X5_witness :
  length (List.filter is_filter
            (Sample.execute [opt_function "m1.foo"] ["*.py"]).2) = 1
  /\ length (List.filter is_get_node
               (Sample.execute [opt_function "m1.foo"] ["*.py"]).2) = 1.
Proof.
  apply (X5_selection_calls_counted Sample.can_append Sample.glob
           Sample.CallGraphVisitor
           lookup Sample.visitor_filter Sample.from_visitor
           [opt_function "m1.foo"] ["*.py"]).
  vm_compute. reflexivity.
Defined.

Lemma X6_witness :
  let flags := [opt_file "out.dot"; opt_dot] in
  let options := imply_grouped (parse_args flags) in
  let logger := setup_logger options in
  let v := Sample.CallGraphVisitor (flat_map Sample.glob ["m1.py"]) logger in
  let graph := Sample.from_visitor v (graph_options_of options) logger in
  let w := writer_of options graph logger DotWriter in
  w_output w = Some "out.dot"
  /\ w_options w = Some ["rankdir=TB"]
  /\ w_logger w = logger
  /\ opt_dot ∈ flags.
Proof.
  intros flags options logger v graph w.
  destruct (X6_writers_share_their_arguments Sample.can_append Sample.glob
              Sample.CallGraphVisitor lookup Sample.visitor_filter
              Sample.from_visitor flags ["m1.py"] w)
    as (Hout & Hopt & Hlog & Hflag & _).
  - apply (execute_plain_runs Sample.can_append Sample.glob
             Sample.CallGraphVisitor lookup
             Sample.visitor_filter Sample.from_visitor flags ["m1.py"]
             DotWriter).
    + reflexivity.
    + reflexivity.
    + discriminate.
    + vm_compute. discriminate.
    + reflexivity.
    + reflexivity.
  - split; [exact Hout|]. split; [exact Hopt|].
    split; [exact Hlog|exact Hflag].
Defined.

Lemma X11_witness :
  Sample.execute [opt_dot] ["nothing.py"; "m1.py"]
  = Sample.execute [opt_dot] ["m1.py"].
Proof.
  refine (proj1 (X11_run_depends_on_expansion_only Sample.can_append Sample.glob
                   Sample.CallGraphVisitor lookup Sample.visitor_filter
                   Sample.from_visitor [opt_dot] ["nothing.py"; "m1.py"]
                   ["m1.py"] _ _)).
  - reflexivity.
  - vm_compute. discriminate.
Defined.
